(** * simple-invoice-pdf: the layout engine of [SimpleInvoicePDF]

    A shallow embedding of the class [SimpleInvoicePDF]: the
    cursor store, the font resolver, the text block renderer, the table row
    layout and the section sequencer, followed by the properties the
    specification states about them.

    Modelling conventions.
    - A JavaScript [number] is an exact rational or one of the three special
      values [Infinity], [-Infinity], [NaN]; IEEE rounding and the sign of
      zero are not modelled.  The class undoes an addition by a subtraction
      in one place, the held cursor at the end of [setText]; no statement
      below takes that subtraction to be exact unless a hypothesis says so,
      and [held_or_advanced_binary64] is that code on binary64 numbers.
    - A JavaScript string holding text is a list of UTF-16 code units
      ([jsstring]); identifiers of the configuration (font names, colours,
      weights, alignments) are [string]s.
    - A [RegExp] of the options is one character class without the [g] and
      [y] flags, as the default ranges are, so that [test] keeps no state.
    - The PDFKit document is a record holding its vertical position and the
      list of the calls it received; what PDFKit computes ([text] layout,
      [image] flow), the [transliteration] package and the part of
      [Number::toString] that the binary format decides are taken from an
      [Externals] parameter. *)

From Stdlib Require Import ZArith NArith QArith Qcanon List String Ascii Bool Lia.
From Stdlib Require Import PrimFloat.
Import ListNotations.

Open Scope Z_scope.

(** ** Numbers *)

Inductive number : Type :=
| Num (q : Qc)
| Infinity
| NegInfinity
| NaN.

Definition num_Z (z : Z) : number := Num (Q2Qc (inject_Z z)).
Definition num_frac (n : Z) (d : positive) : number := Num (Q2Qc (n # d)).

Definition nopp (x : number) : number :=
  match x with
  | Num q => Num (- q)%Qc
  | Infinity => NegInfinity
  | NegInfinity => Infinity
  | NaN => NaN
  end.

Definition nadd (x y : number) : number :=
  match x, y with
  | NaN, _ | _, NaN => NaN
  | Num a, Num b => Num (a + b)%Qc
  | Infinity, NegInfinity | NegInfinity, Infinity => NaN
  | Infinity, _ | _, Infinity => Infinity
  | NegInfinity, _ | _, NegInfinity => NegInfinity
  end.

Definition nsub (x y : number) : number := nadd x (nopp y).

(** [ncompare] is [None] when the operands are unordered (one is [NaN]). *)
Definition ncompare (x y : number) : option comparison :=
  match x, y with
  | NaN, _ | _, NaN => None
  | Num a, Num b => Some (a ?= b)%Qc
  | Infinity, Infinity | NegInfinity, NegInfinity => Some Eq
  | Infinity, _ | _, NegInfinity => Some Gt
  | NegInfinity, _ | _, Infinity => Some Lt
  end.

(** [x > y] and [x >= y] *)
Definition ngt (x y : number) : bool :=
  match ncompare x y with Some Gt => true | _ => false end.
Definition nge (x y : number) : bool :=
  match ncompare x y with Some Gt | Some Eq => true | _ => false end.

(** [x * y] *)
Definition nmul (x y : number) : number :=
  match x, y with
  | NaN, _ | _, NaN => NaN
  | Num a, Num b => Num (a * b)%Qc
  | Num a, inf | inf, Num a =>
      match (a ?= 0)%Qc with
      | Eq => NaN
      | Gt => inf
      | Lt => nopp inf
      end
  | Infinity, Infinity | NegInfinity, NegInfinity => Infinity
  | _, _ => NegInfinity
  end.

(** [x / y]; a zero divisor is the positive zero, the only zero the program
    divides by ([columns.length - 2]). *)
Definition ndiv (x y : number) : number :=
  match x, y with
  | NaN, _ | _, NaN => NaN
  | Num a, Num b =>
      match (b ?= 0)%Qc with
      | Eq =>
          match (a ?= 0)%Qc with
          | Eq => NaN
          | Gt => Infinity
          | Lt => NegInfinity
          end
      | _ => Num (a / b)%Qc
      end
  | Num _, _ => Num 0%Qc
  | inf, Num b =>
      match (b ?= 0)%Qc with
      | Lt => nopp inf
      | _ => inf
      end
  | _, _ => NaN
  end.

(** [Math.max(x, y)] *)
Definition Math_max (x y : number) : number :=
  match ncompare x y with
  | None => NaN
  | Some Lt => y
  | Some _ => x
  end.

Definition is_finite (x : number) : bool :=
  match x with Num _ => true | _ => false end.

(** ** Strings *)

Definition jsstring : Type := list N.

Fixpoint str (s : string) : jsstring :=
  match s with
  | EmptyString => []
  | String a s' => N_of_ascii a :: str s'
  end.

(** ["\n"] *)
Definition newline : jsstring := [10%N].

(** ** [Number.prototype.toFixed(2)] and [Number.prototype.toString()] *)

Definition digit (d : N) : N := (48 + d)%N.

Fixpoint digits_fuel (fuel : nat) (n : N) : jsstring :=
  match fuel with
  | O => []
  | S fuel' =>
      if (n <? 10)%N then [digit n]
      else digits_fuel fuel' (n / 10)%N ++ [digit (n mod 10)%N]
  end.

(** The decimal representation of [n], most significant digit first. *)
Definition digits (n : N) : jsstring := digits_fuel (S (N.size_nat n)) n.

(** The integer [n] for which [n / 100 - x] is as close to zero as possible,
    the larger one of two, for [x = a / b >= 0]. *)
Definition hundredths (a : Z) (b : positive) : N :=
  Z.to_N ((200 * a + Z.pos b) / (2 * Z.pos b)).

(** Steps 8 to 10 of [toFixed] with [fractionDigits = 2]: pad the digits of
    [n] to three, then put the point before the last two. *)
Definition fixed_notation (n : N) : jsstring :=
  let m := digits n in
  let k := List.length m in
  let m := if (k <=? 2)%nat then repeat (digit 0) (3 - k) ++ m else m in
  let k := List.length m in
  firstn (k - 2) m ++ str "." ++ skipn (k - 2) m.

Definition ten_pow_21 : Z := 10 ^ 21.
Definition two_pow_53 : Z := 2 ^ 53.

Definition Qc_abs_num (q : Qc) : Z := Z.abs (Qnum q).

(** [|q| < 10^21] *)
Definition below_1e21 (q : Qc) : bool :=
  Qc_abs_num q <? ten_pow_21 * Z.pos (Qden q).

(** An integer whose decimal digits are all significant in a double. *)
Definition safe_integer (q : Qc) : bool :=
  (Pos.eqb (Qden q) 1) && (Qc_abs_num q <=? two_pow_53).

Definition is_negative (q : Qc) : bool := Qnum q <? 0.

Section Builtins.

(** [Number::toString] on the finite values whose shortest round-trip
    representation depends on the binary format (non-integers and
    integers beyond [2^53]) is a parameter. *)
Variable shortest_repr : Qc -> jsstring.

Definition Number_toString (x : number) : jsstring :=
  match x with
  | NaN => str "NaN"
  | Infinity => str "Infinity"
  | NegInfinity => str "-Infinity"
  | Num q =>
      if safe_integer q then
        (if is_negative q then str "-" else []) ++
        digits (Z.to_N (Qc_abs_num q))
      else shortest_repr q
  end.

Definition toFixed2 (x : number) : jsstring :=
  match x with
  | Num q =>
      if below_1e21 q then
        (if is_negative q then str "-" else []) ++
        fixed_notation (hundredths (Qc_abs_num q) (Qden q))
      else
        (if is_negative q then str "-" else []) ++
        Number_toString (Num (if is_negative q then (- q)%Qc else q))
  | _ => Number_toString x
  end.

End Builtins.

(** ** Values of the invoice data: [string | number] *)

Inductive value : Type :=
| VString (s : jsstring)
| VNumber (n : number).

(** ** The options: [InvoiceOptions] after the merge onto the defaults *)

(** A [RegExp] of the shape the configuration uses: one character class,
    without the [g] and [y] flags, so that [test] keeps no state. *)
Record RegExp : Type := { char_class : N -> bool }.

Definition RegExp_test (re : RegExp) (s : jsstring) : bool :=
  existsb (char_class re) s.

Record HeaderImage : Type := {
  image_path : string;
  image_width : number;
  image_height : number
}.

Record HeaderOptions : Type := {
  backgroundColor : string;
  header_height : number;
  header_image : option HeaderImage;
  textPosition : number;
  regularColor : option string;
  header_secondaryColor : option string
}.

Record FontOptions : Type := {
  font_name : string;
  font_range : RegExp;
  font_path : option string
}.

Record FallbackFont : Type := {
  fallback_name : string;
  fallback_path : string;
  fallback_enabled : bool;
  fallback_range : RegExp;
  fallback_transliterate : bool
}.

Record Fonts : Type := {
  normal : FontOptions;
  bold : FontOptions;
  fallback : FallbackFont
}.

Record ColumnOptions : Type := {
  position : number;
  column_maxWidth : number
}.

Record TableOptions : Type := {
  quantity : ColumnOptions;
  total : ColumnOptions
}.

Record TextOptions : Type := {
  primaryColor : string;
  secondaryColor : string;
  headingSize : number;
  regularSize : number
}.

Record DocumentOptions : Type := {
  marginLeft : number;
  marginRight : number;
  doc_marginTop : number
}.

Record Style : Type := {
  style_document : DocumentOptions;
  fonts : Fonts;
  header : HeaderOptions;
  table : TableOptions;
  text : TextOptions
}.

(** [line.value] of a header, customer or seller line: one value or an array *)
Inductive line_value : Type :=
| Single (v : value)
| Multiple (vs : list value).

Record Line : Type := {
  line_label : jsstring;
  line_value_of : line_value
}.

Record Cell : Type := {
  cell_value : value;
  cell_price : option bool
}.

Record Total : Type := {
  total_label : jsstring;
  total_value : value;
  total_price : option bool
}.

Record Legal : Type := {
  legal_value : jsstring;
  legal_weight : option string;
  legal_color : option string
}.

Record Details : Type := {
  details_header : list Cell;
  details_parts : list (list Cell);
  details_total : list Total
}.

Record InvoiceData : Type := {
  invoice_name : jsstring;
  invoice_header : list Line;
  invoice_customer : list Line;
  invoice_seller : list Line;
  currency : option jsstring;
  details : Details;
  legal : list Legal
}.

Record InvoiceOptions : Type := {
  style : Style;
  invoice : InvoiceData
}.

(** ** The PDFKit document *)

Inductive op : Type :=
| OpRegisterFont (name path : string)
| OpRect (x y w h : number)
| OpFill (color : string)
| OpImage (path : string) (x y w h : number)
| OpFillColor (color : string)
| OpFont (name : string)
| OpFontSize (size : number)
| OpText (t : jsstring) (x y : number) (align : string) (width : option number)
| OpStrokeColor (color : string)
| OpLineWidth (w : number)
| OpMoveTo (x y : number)
| OpLineTo (x y : number)
| OpStroke.

Record PDFDocument : Type := {
  doc_y : number;
  doc_ops : list op
}.

(** What the program takes from its collaborators: PDFKit's page geometry
    and the vertical position it reports after [text] and [image], the
    [transliteration] package, and [Number::toString] where the binary
    format decides. *)
Record Externals : Type := {
  page_width : number;
  initial_y : number;
  text_y : PDFDocument -> jsstring -> number -> number -> string ->
           option number -> number;
  image_y : PDFDocument -> string -> number -> number -> number -> number ->
            number;
  transliterate : jsstring -> jsstring;
  shortest_repr : Qc -> jsstring
}.

(** ** [this.storage] *)

Record Storage : Type := {
  cursor_x : number;
  cursor_y : number;
  customer_height : number;
  seller_height : number;
  fallback_loaded : bool;
  document : option PDFDocument
}.

Definition set_cursor_x (v : number) (s : Storage) : Storage :=
  {| cursor_x := v; cursor_y := cursor_y s;
     customer_height := customer_height s; seller_height := seller_height s;
     fallback_loaded := fallback_loaded s; document := document s |}.

Definition set_cursor_y (v : number) (s : Storage) : Storage :=
  {| cursor_x := cursor_x s; cursor_y := v;
     customer_height := customer_height s; seller_height := seller_height s;
     fallback_loaded := fallback_loaded s; document := document s |}.

Definition set_customer_height (v : number) (s : Storage) : Storage :=
  {| cursor_x := cursor_x s; cursor_y := cursor_y s;
     customer_height := v; seller_height := seller_height s;
     fallback_loaded := fallback_loaded s; document := document s |}.

Definition set_seller_height (v : number) (s : Storage) : Storage :=
  {| cursor_x := cursor_x s; cursor_y := cursor_y s;
     customer_height := customer_height s; seller_height := v;
     fallback_loaded := fallback_loaded s; document := document s |}.

Definition set_fallback_loaded (v : bool) (s : Storage) : Storage :=
  {| cursor_x := cursor_x s; cursor_y := cursor_y s;
     customer_height := customer_height s; seller_height := seller_height s;
     fallback_loaded := v; document := document s |}.

Definition set_document (d : PDFDocument) (s : Storage) : Storage :=
  {| cursor_x := cursor_x s; cursor_y := cursor_y s;
     customer_height := customer_height s; seller_height := seller_height s;
     fallback_loaded := fallback_loaded s; document := Some d |}.

(** [this.storage] as the constructor leaves it *)
Definition initial_storage : Storage :=
  {| cursor_x := num_Z 0; cursor_y := num_Z 0;
     customer_height := num_Z 0; seller_height := num_Z 0;
     fallback_loaded := false; document := None |}.

(** The options of a [setText] call; [None] is an absent key. *)
Record TextCall : Type := {
  fontWeight : option string;
  colorCode : option string;
  fontSize : option string;
  align : option string;
  color : option string;
  marginTop : option number;
  maxWidth : option number;
  skipDown : option bool
}.

(** [setText(text)]: no options *)
Definition no_options : TextCall :=
  {| fontWeight := None; colorCode := None; fontSize := None; align := None;
     color := None; marginTop := None; maxWidth := None; skipDown := None |}.

Definition default {A : Type} (d : A) (o : option A) : A :=
  match o with Some a => a | None => d end.

(** Truthiness of a string and of an optional string *)
Definition truthy (s : string) : bool := negb (s =? "")%string.
Definition truthy_opt (o : option string) : bool :=
  match o with Some s => truthy s | None => false end.

Inductive FontKey : Type := KNormal | KBold.
Inductive DetailsType : Type := Customer | Seller.
Inductive RowType : Type := HeaderRow | Row.
Inductive Axis : Type := X | Y.

(** ** The methods of [SimpleInvoicePDF] *)

Section SimpleInvoicePDF.

Variable ext : Externals.
Variable options : InvoiceOptions.

(** [new PDFDocument({ size: "A4" })] *)
Definition new_document : PDFDocument :=
  {| doc_y := initial_y ext; doc_ops := [] |}.

(** [getDocument]: the document, created at the first call. A document
    that was not created yet is the new document, which is stored with the
    first call it receives. *)
Definition getDocument (s : Storage) : PDFDocument :=
  match document s with
  | Some d => d
  | None => new_document
  end.

(** [this.getDocument().m(...)] for a method [m] that only records a call *)
Definition call (o : op) (s : Storage) : Storage :=
  let d := getDocument s in
  set_document {| doc_y := doc_y d; doc_ops := doc_ops d ++ [o] |} s.

(** [this.getDocument().text(t, x, y, { align, width })] *)
Definition call_text (t : jsstring) (x y : number) (al : string)
    (w : option number) (s : Storage) : Storage :=
  let d := getDocument s in
  set_document
    {| doc_y := text_y ext d t x y al w;
       doc_ops := doc_ops d ++ [OpText t x y al w] |} s.

(** [this.getDocument().image(path, x, y, { width, height })] *)
Definition call_image (path : string) (x y w h : number) (s : Storage)
    : Storage :=
  let d := getDocument s in
  set_document
    {| doc_y := image_y ext d path x y w h;
       doc_ops := doc_ops d ++ [OpImage path x y w h] |} s.

Definition loadCustomFonts (s : Storage) : Storage :=
  let f := fonts (style options) in
  let s :=
    if truthy_opt (font_path (normal f))
    then call (OpRegisterFont (font_name (normal f))
                 (default ""%string (font_path (normal f)))) s
    else s in
  if truthy_opt (font_path (bold f))
  then call (OpRegisterFont (font_name (bold f))
               (default ""%string (font_path (bold f)))) s
  else s.

(** [String(v)], as [RegExp.prototype.test], template literals and PDFKit
    apply it to their argument *)
Definition ToString (v : value) : jsstring :=
  match v with
  | VString t => t
  | VNumber n => Number_toString (shortest_repr ext) n
  end.

(** [value || ""], then [ToString] *)
Definition or_empty (v : value) : jsstring :=
  match v with
  | VString t => t
  | VNumber (Num q) => if Qc_eq_bool q 0 then [] else ToString v
  | VNumber NaN => []
  | VNumber _ => ToString v
  end.

(** [if (type !== "normal" && type !== "bold") type = "normal"]: the
    argument, whatever it is at run time, in its declared type
    ["normal" | "bold"] *)
Definition coerce_type (type : option string) : FontKey :=
  match type with
  | Some w =>
      if negb (w =? "normal")%string && negb (w =? "bold")%string
      then KNormal
      else if (w =? "bold")%string then KBold else KNormal
  | None => KNormal
  end.

(** [this.options.style.fonts[type].name] *)
Definition fonts_name (type : FontKey) : string :=
  match type with
  | KNormal => font_name (normal (fonts (style options)))
  | KBold => font_name (bold (fonts (style options)))
  end.

Definition getFontOrFallback (type : option string) (v : value)
    (s : Storage) : string * Storage :=
  let f := fonts (style options) in
  let normalRange := font_range (normal f) in
  let fallbackRange := fallback_range (fallback f) in
  let type := coerce_type type in
  if negb (fallback_enabled (fallback f)) then (fonts_name type, s)
  else if negb (RegExp_test normalRange (or_empty v)) then
    (fonts_name type, s)
  else if RegExp_test fallbackRange (or_empty v) then (fonts_name type, s)
  else
    let s :=
      if negb (fallback_loaded s)
      then set_fallback_loaded true
             (call (OpRegisterFont (fallback_name (fallback f))
                      (fallback_path (fallback f))) s)
      else s in
    (fallback_name (fallback f), s).

Definition valueOrTransliterate (v : value) : jsstring :=
  let fallbackRange := fallback_range (fallback (fonts (style options))) in
  if negb (fallback_enabled (fallback (fonts (style options)))) then
    ToString v
  else if negb (RegExp_test fallbackRange (or_empty v)) then ToString v
  else transliterate ext (ToString v).

Definition setCursor (axis : Axis) (v : number) (s : Storage) : Storage :=
  match axis with
  | X => set_cursor_x v s
  | Y => set_cursor_y v s
  end.

Definition prettyPrice (v : value) : jsstring :=
  let v :=
    match v with
    | VNumber n => toFixed2 (shortest_repr ext) n
    | VString t => t
    end in
  match currency (invoice options) with
  | Some (c :: cs) => v ++ str " " ++ (c :: cs)
  | _ => v
  end.

(** The height subtracted when a held draw reads back no movement *)
Definition single_line_height : number := num_frac 23 2.

(** [setText] from its first statement to the [text] call *)
Definition setText_draw (t : value) (o : TextCall) (s : Storage) : Storage :=
  let fontWeight := default "normal"%string (fontWeight o) in
  let colorCode := default "primary"%string (colorCode o) in
  let fontSize := default "regular"%string (fontSize o) in
  let align := default "left"%string (align o) in
  let color := default ""%string (color o) in
  let marginTop := default (num_Z 0) (marginTop o) in
  let s := set_cursor_y (nadd (cursor_y s) marginTop) s in
  let s :=
    if negb (truthy color) then
      if (colorCode =? "primary")%string
      then call (OpFillColor (primaryColor (text (style options)))) s
      else call (OpFillColor (secondaryColor (text (style options)))) s
    else s in
  let fontSizeValue :=
    if (fontSize =? "regular")%string
    then regularSize (text (style options))
    else headingSize (text (style options)) in
  let (name, s) := getFontOrFallback (Some fontWeight) t s in
  let s := call (OpFont name) s in
  let s := call (OpFillColor color) s in
  let s := call (OpFontSize fontSizeValue) s in
  call_text (valueOrTransliterate t) (cursor_x s) (cursor_y s) align
    (maxWidth o) s.

(** [setText] after the [text] call: the position is read back *)
Definition setText_readback (o : TextCall) (s : Storage) : Storage :=
  let diff := nsub (doc_y (getDocument s)) (cursor_y s) in
  let s := set_cursor_y (doc_y (getDocument s)) s in
  match skipDown o with
  | Some true =>
      if ngt diff (num_Z 0)
      then set_cursor_y (nsub (cursor_y s) diff) s
      else set_cursor_y (nsub (cursor_y s) single_line_height) s
  | _ => s
  end.

Definition setText (t : value) (o : TextCall) (s : Storage) : Storage :=
  setText_readback o (setText_draw t o s).

(** [Array.isArray(line.value) ? line.value : [line.value]] *)
Definition values_of (l : Line) : list value :=
  match line_value_of l with
  | Single v => [v]
  | Multiple vs => vs
  end.

(** [`${line.label}:`] *)
Definition label_colon (l : Line) : value :=
  VString (line_label l ++ str ":").

Definition generateHeader (s : Storage) : Storage :=
  let h := header (style options) in
  let s := call (OpRect (num_Z 0) (num_Z 0) (page_width ext)
                   (header_height h)) s in
  let s := call (OpFill (backgroundColor h)) s in
  let s :=
    match header_image h with
    | Some image =>
        if truthy (image_path image)
        then call_image (image_path image)
               (marginLeft (style_document (style options)))
               (doc_marginTop (style_document (style options)))
               (image_width image) (image_height image) s
        else s
    | None => s
    end in
  let fontMargin := num_Z 4 in
  let s := setCursor X (textPosition h) s in
  let s := setCursor Y (doc_marginTop (style_document (style options))) s in
  let s :=
    setText (VString (invoice_name (invoice options)))
      {| fontWeight := Some "bold"%string; colorCode := None;
         fontSize := Some "heading"%string; align := None;
         color := regularColor h; marginTop := None; maxWidth := None;
         skipDown := None |} s in
  fold_left
    (fun s line =>
       let s :=
         setText (label_colon line)
           {| fontWeight := Some "bold"%string; colorCode := None;
              fontSize := None; align := None; color := regularColor h;
              marginTop := Some fontMargin; maxWidth := None;
              skipDown := None |} s in
       fold_left
         (fun s v =>
            setText v
              {| fontWeight := None; colorCode := Some "secondary"%string;
                 fontSize := None; align := None;
                 color := header_secondaryColor h;
                 marginTop := Some fontMargin; maxWidth := None;
                 skipDown := None |} s)
         (values_of line) s)
    (invoice_header (invoice options)) s.

(** [this.options.data.invoice[type]] *)
Definition invoice_lines (type : DetailsType) : list Line :=
  match type with
  | Customer => invoice_customer (invoice options)
  | Seller => invoice_seller (invoice options)
  end.

(** [this.storage[type].height] *)
Definition height_of (type : DetailsType) (s : Storage) : number :=
  match type with
  | Customer => customer_height s
  | Seller => seller_height s
  end.

Definition set_height_of (type : DetailsType) (v : number) (s : Storage)
    : Storage :=
  match type with
  | Customer => set_customer_height v s
  | Seller => set_seller_height v s
  end.

Definition details_line (s : Storage) (line : Line) : Storage :=
  let maxWidth := num_Z 250 in
  let fontMargin := num_Z 4 in
  let s :=
    setText (label_colon line)
      {| fontWeight := Some "bold"%string; colorCode := Some "primary"%string;
         fontSize := None; align := None; color := None;
         marginTop := Some (num_Z 8); maxWidth := Some maxWidth;
         skipDown := None |} s in
  fold_left
    (fun s v =>
       setText v
         {| fontWeight := None; colorCode := Some "secondary"%string;
            fontSize := None; align := None; color := None;
            marginTop := Some fontMargin; maxWidth := Some maxWidth;
            skipDown := None |} s)
    (values_of line) s.

Definition generateDetails (type : DetailsType) (s : Storage) : Storage :=
  let s :=
    setCursor Y (nadd (header_height (header (style options))) (num_Z 18))
      s in
  let s :=
    match type with
    | Customer => setCursor X (marginLeft (style_document (style options))) s
    | Seller => setCursor X (textPosition (header (style options))) s
    end in
  let s := fold_left details_line (invoice_lines type) s in
  set_height_of type (cursor_y s) s.

Definition generateLine (s : Storage) : Storage :=
  let marginRight := marginRight (style_document (style options)) in
  let s :=
    set_cursor_y
      (nadd (cursor_y s)
         (nadd (regularSize (text (style options))) (num_Z 2))) s in
  let s := call (OpStrokeColor "#F0F0F0") s in
  let s := call (OpLineWidth (num_Z 1)) s in
  let s := call (OpMoveTo marginRight (cursor_y s)) s in
  let s :=
    call (OpLineTo (nsub (page_width ext) marginRight) (cursor_y s)) s in
  call OpStroke s.

(** The variables the callback of [columns.forEach] closes over *)
Record RowState : Type := {
  start : number;
  row_maxWidth : number;
  maxY : number;
  row_storage : Storage
}.

(** [_value.toString()] after the optional [prettyPrice] *)
Definition cell_text (value : value) (price : option bool) : jsstring :=
  match price with
  | Some true => prettyPrice value
  | _ => ToString value
  end.

(** One call of the callback: [length] is [columns.length] *)
Definition row_column (fontWeight colorCode : string) (length : Z)
    (r : RowState) (index : Z) (column : Cell) : RowState :=
  let tbl := table (style options) in
  let '(maxWidth, s) :=
    if index <? length - 2 then
      (row_maxWidth r, setCursor X (start r) (row_storage r))
    else if index =? length - 2 then
      (column_maxWidth (quantity tbl),
       setCursor X (position (quantity tbl)) (row_storage r))
    else
      (column_maxWidth (total tbl),
       setCursor X (position (total tbl)) (row_storage r)) in
  let s :=
    setText (VString (cell_text (cell_value column) (cell_price column)))
      {| fontWeight := Some fontWeight; colorCode := Some colorCode;
         fontSize := None; align := None; color := None; marginTop := None;
         maxWidth := Some maxWidth; skipDown := Some true |} s in
  let start := nadd (start r) (nadd maxWidth (num_Z 10)) in
  let maxY :=
    if nge (doc_y (getDocument s)) (maxY r)
    then doc_y (getDocument s)
    else maxY r in
  {| start := start; row_maxWidth := maxWidth; maxY := maxY;
     row_storage := s |}.

(** [columns.forEach((column, index) => ...)], from [index] on *)
Fixpoint row_columns (fontWeight colorCode : string) (length : Z)
    (index : Z) (columns : list Cell) (r : RowState) : RowState :=
  match columns with
  | [] => r
  | column :: rest =>
      row_columns fontWeight colorCode length (index + 1) rest
        (row_column fontWeight colorCode length r index column)
  end.

(** The width the columns before the last two share *)
Definition shared_width (length : Z) : number :=
  ndiv
    (nsub
       (nsub (textPosition (header (style options)))
          (marginLeft (style_document (style options))))
       (marginRight (style_document (style options))))
    (nsub (num_Z length) (num_Z 2)).

(** [fontWeight] and [colorCode] of the cells of a row *)
Definition row_font (type : RowType) : string * string :=
  match type with
  | HeaderRow => ("bold"%string, "primary"%string)
  | Row => ("normal"%string, "secondary"%string)
  end.

(** The variables when [columns.forEach] starts, the cursor being on the
    row's line *)
Definition row_start (length : Z) (s : Storage) : RowState :=
  {| start := marginLeft (style_document (style options));
     row_maxWidth := shared_width length;
     maxY := cursor_y s;
     row_storage := s |}.

(** [generateTableRow] up to [this.setCursor("y", maxY)] *)
Definition generateTableRow_cells (type : RowType) (columns : list Cell)
    (s : Storage) : Storage :=
  let s := set_cursor_y (doc_y (getDocument s)) s in
  let s := set_cursor_y (nadd (cursor_y s) (num_Z 17)) s in
  let length := Z.of_nat (List.length columns) in
  let r :=
    row_columns (fst (row_font type)) (snd (row_font type)) length 0
      columns (row_start length s) in
  setCursor Y (maxY r) (row_storage r).

Definition generateTableRow (type : RowType) (columns : list Cell)
    (s : Storage) : Storage :=
  let s := generateTableRow_cells type columns s in
  match type with
  | HeaderRow => generateLine s
  | Row => s
  end.

Definition total_line (s : Storage) (t : Total) : Storage :=
  let tbl := table (style options) in
  let s := setCursor X (position (quantity tbl)) s in
  let s :=
    setText (VString (total_label t))
      {| fontWeight := Some "bold"%string; colorCode := Some "primary"%string;
         fontSize := None; align := None; color := None;
         marginTop := Some (num_Z 12);
         maxWidth := Some (column_maxWidth (quantity tbl));
         skipDown := Some true |} s in
  let s := setCursor X (position (total tbl)) s in
  setText (VString (cell_text (total_value t) (total_price t)))
    {| fontWeight := None; colorCode := Some "secondary"%string;
       fontSize := None; align := None; color := None; marginTop := None;
       maxWidth := Some (column_maxWidth (total tbl)); skipDown := None |} s.

Definition generateParts (s : Storage) : Storage :=
  let startY := Math_max (customer_height s) (seller_height s) in
  let s := setCursor Y startY s in
  let s := setText (VString newline) no_options s in
  let s :=
    generateTableRow HeaderRow (details_header (details (invoice options)))
      s in
  let s :=
    fold_left (fun s part => generateTableRow Row part s)
      (details_parts (details (invoice options))) s in
  let s := set_cursor_y (nadd (cursor_y s) (num_Z 50)) s in
  fold_left total_line (details_total (details (invoice options))) s.

Definition legal_line (s : Storage) (l : Legal) : Storage :=
  let s :=
    setCursor X
      (nmul (marginLeft (style_document (style options))) (num_Z 2)) s in
  setText (VString (legal_value l))
    {| fontWeight := legal_weight l;
       colorCode :=
         Some (if truthy_opt (legal_color l)
               then default ""%string (legal_color l)
               else "primary"%string);
       fontSize := None; align := Some "center"%string; color := None;
       marginTop := Some (num_Z 10); maxWidth := None; skipDown := None |} s.

Definition generateLegal (s : Storage) : Storage :=
  let s := set_cursor_y (nadd (cursor_y s) (num_Z 60)) s in
  fold_left legal_line (legal (invoice options)) s.

(** The synchronous part of [generateBuffer]: the storage, and in it the
    document, when the stream is about to be closed *)
Definition generateBuffer (s : Storage) : Storage :=
  let s := set_document (getDocument s) s in
  let s := loadCustomFonts s in
  let s := generateHeader s in
  let s := generateDetails Customer s in
  let s := generateDetails Seller s in
  let s := generateParts s in
  generateLegal s.

End SimpleInvoicePDF.

(** ** The default options and a sample invoice *)

(** [/[^\u0000-\uHHHH]/m]: a code unit above [hi] *)
Definition above (hi : N) : RegExp := {| char_class := fun c => (hi <? c)%N |}.

Definition default_style : Style :=
  {| style_document :=
       {| marginLeft := num_Z 30; marginRight := num_Z 30;
          doc_marginTop := num_Z 30 |};
     fonts :=
       {| normal :=
            {| font_name := "Helvetica"; font_range := above 255;
               font_path := None |};
          bold :=
            {| font_name := "Helvetica-Bold"; font_range := above 255;
               font_path := None |};
          fallback :=
            {| fallback_name := "Noto Sans";
               fallback_path := "../res/fonts/NotoSans-Regular.ttf";
               fallback_enabled := true; fallback_range := above 1280;
               fallback_transliterate := true |} |};
     header :=
       {| backgroundColor := "#F8F8FA"; header_height := num_Z 150;
          header_image := None; textPosition := num_Z 330;
          regularColor := None; header_secondaryColor := None |};
     table :=
       {| quantity := {| position := num_Z 330; column_maxWidth := num_Z 140 |};
          total := {| position := num_Z 490; column_maxWidth := num_Z 80 |} |};
     text :=
       {| primaryColor := "#000100"; secondaryColor := "#8F8F8F";
          headingSize := num_Z 15; regularSize := num_Z 10 |} |}.

Definition text_cell (t : string) : Cell :=
  {| cell_value := VString (str t); cell_price := None |}.
Definition number_cell (z : Z) : Cell :=
  {| cell_value := VNumber (num_Z z); cell_price := None |}.
Definition price_cell (t : string) : Cell :=
  {| cell_value := VString (str t); cell_price := Some true |}.

Definition sample_row : list Cell :=
  [text_cell "Nike Air Max"; number_cell 1; price_cell "53"].

(** A row of two columns: a label and an amount *)
Definition two_column_row : list Cell :=
  [text_cell "Shipping"; price_cell "10"].

(** A row whose first cell needs two lines in a column 270 units wide *)
Definition wrapping_row : list Cell :=
  [text_cell "Nike Air Max, size 42, colour black, boxed, gift wrapped";
   number_cell 1; price_cell "53"].

Definition sample_invoice (eur : option jsstring) : InvoiceData :=
  {| invoice_name := str "Invoice";
     invoice_header :=
       [ {| line_label := str "Invoice Number";
            line_value_of := Single (VNumber (num_Z 1)) |};
         {| line_label := str "Status";
            line_value_of := Single (VString (str "Paid")) |} ];
     invoice_customer :=
       [ {| line_label := str "Bill To";
            line_value_of :=
              Multiple [VString (str "John Doe"); VString (str "Acme Corp");
                        VString (str "USA")] |} ];
     invoice_seller :=
       [ {| line_label := str "Bill From";
            line_value_of :=
              Multiple [VString (str "Big Corp"); VString (str "UK")] |} ];
     currency := eur;
     details :=
       {| details_header :=
            [text_cell "Description"; text_cell "Quantity";
             text_cell "Subtotal"];
          details_parts := [wrapping_row; sample_row];
          details_total :=
            [ {| total_label := str "Total paid with VAT";
                 total_value := VString (str "51.6");
                 total_price := Some true |} ] |};
     legal :=
       [ {| legal_value := str "Lorem ipsum dolor sit amet";
            legal_weight := None; legal_color := None |};
         {| legal_value := [1055; 1088; 1080; 1074; 1077; 1090]%N;
            legal_weight := Some "bold"%string;
            legal_color := Some "secondary"%string |} ] |}.

Definition sample_options : InvoiceOptions :=
  {| style := default_style; invoice := sample_invoice (Some (str "EUR")) |}.

Definition sample_options_no_currency : InvoiceOptions :=
  {| style := default_style; invoice := sample_invoice None |}.

(** A stand-in for PDFKit with fixed metrics: every code unit is 6 units
    wide, a line is 11.56 units high, text wraps at the given width, and an
    empty text does not move the position. *)
Definition sample_lines (t : jsstring) (w : option number) : Z :=
  match t with
  | [] => 0
  | _ =>
      match w with
      | Some (Num q) =>
          if 0 <? Qnum q
          then Z.max 1
                 ((6 * Z.of_nat (List.length t) * Z.pos (Qden q) + Qnum q - 1)
                  / Qnum q)
          else 1
      | _ => 1
      end
  end.

(** Up to six decimals, without the zeros at the end: what JavaScript prints
    for the short decimal numbers an invoice holds. *)
Fixpoint without_leading (c : N) (l : jsstring) : jsstring :=
  match l with
  | [] => []
  | a :: l' => if (a =? c)%N then without_leading c l' else l
  end.

Definition sample_shortest_repr (q : Qc) : jsstring :=
  let scaled := Z.to_N (Qc_abs_num q * 1000000 / Z.pos (Qden q)) in
  let fraction := digits (scaled mod 1000000) in
  let fraction := repeat (digit 0) (6 - List.length fraction) ++ fraction in
  let fraction := rev (without_leading (digit 0) (rev fraction)) in
  (if is_negative q then str "-" else []) ++
  digits (scaled / 1000000) ++
  match fraction with
  | [] => []
  | _ => str "." ++ fraction
  end.

Definition sample_ext : Externals :=
  {| page_width := num_frac 59528 100;
     initial_y := num_Z 72;
     text_y := fun _ t _ y _ w =>
       nadd y (nmul (num_Z (sample_lines t w)) (num_frac 289 25));
     image_y := fun d _ _ _ _ _ => doc_y d;
     transliterate := map (fun c => if (c <? 128)%N then c else 63%N);
     shortest_repr := sample_shortest_repr |}.

(** The code units of a Cyrillic word and of a CJK word *)
Definition cyrillic_text : jsstring := [1055; 1088; 1080; 1074; 1077; 1090]%N.
Definition cjk_text : jsstring := [35531; 27714; 26360]%N.

Definition key_string (k : FontKey) : string :=
  match k with
  | KNormal => "normal"
  | KBold => "bold"
  end.

(** The text contains a character that the pattern matches. *)
Definition contains_match (re : RegExp) (t : jsstring) : Prop :=
  exists c, In c t /\ char_class re c = true.

(** ** Views of the document *)

(** The [text] calls the document received: text, x, y and width *)
Fixpoint texts_of (ops : list op)
    : list (jsstring * number * number * option number) :=
  match ops with
  | [] => []
  | OpText t x y _ w :: ops' => (t, x, y, w) :: texts_of ops'
  | _ :: ops' => texts_of ops'
  end.

(** The [registerFont] calls the document received *)
Fixpoint registrations_of (ops : list op) : list (string * string) :=
  match ops with
  | [] => []
  | OpRegisterFont name path :: ops' => (name, path) :: registrations_of ops'
  | _ :: ops' => registrations_of ops'
  end.

Definition texts (ext : Externals) (s : Storage) :=
  texts_of (doc_ops (getDocument ext s)).

Definition registrations (ext : Externals) (s : Storage) :=
  registrations_of (doc_ops (getDocument ext s)).

Definition x_and_width (c : jsstring * number * number * option number)
    : number * option number :=
  let '(_, x, _, w) := c in (x, w).

Definition y_of (c : jsstring * number * number * option number) : number :=
  let '(_, _, y, _) := c in y.

(** The cursor after the read-back of [setText], from the position [y0] of
    the draw and the position [yNew] the document reports. *)
Definition held_or_advanced (o : TextCall) (y0 yNew : number) : number :=
  match skipDown o with
  | Some true =>
      if ngt (nsub yNew y0) (num_Z 0)
      then nsub yNew (nsub yNew y0)
      else nsub yNew single_line_height
  | _ => yNew
  end.

(** The position the document reports after each cell of a row, in the order
    of the cells: the values [this.getDocument().y] takes in the callback of
    [columns.forEach]. *)
Fixpoint reached_from (ext : Externals) (options : InvoiceOptions)
    (fontWeight colorCode : string) (length index : Z) (columns : list Cell)
    (r : RowState) : list number :=
  match columns with
  | [] => []
  | column :: rest =>
      let r' := row_column ext options fontWeight colorCode length r index
                  column in
      doc_y (getDocument ext (row_storage r')) ::
      reached_from ext options fontWeight colorCode length (index + 1) rest r'
  end.

(** The storage when the first cell of a row is about to be drawn *)
Definition on_row_line (ext : Externals) (s : Storage) : Storage :=
  set_cursor_y (nadd (doc_y (getDocument ext s)) (num_Z 17)) s.

Definition cells_reached (ext : Externals) (options : InvoiceOptions)
    (type : RowType) (columns : list Cell) (s : Storage) : list number :=
  let length := Z.of_nat (List.length columns) in
  reached_from ext options (fst (row_font type)) (snd (row_font type)) length
    0 columns (row_start options length (on_row_line ext s)).

(** The [text] calls a method added to the document of [s], [s'] being the
    storage it returned *)
Definition drawn (ext : Externals) (s s' : Storage) :=
  skipn (List.length (texts ext s)) (texts ext s').

(** The layout of section 4.4 for the columns before the last two: [k]
    columns of width [w] from [x] on, [w + 10] apart *)
Fixpoint spec_shared_columns (k : nat) (x w : number)
    : list (number * option number) :=
  match k with
  | O => []
  | S k' => (x, Some w) :: spec_shared_columns k' (nadd x (nadd w (num_Z 10))) w
  end.

(** The layout of section 4.4 for a row of [n] columns *)
Definition spec_row_layout (options : InvoiceOptions) (n : nat)
    : list (number * option number) :=
  let tbl := table (style options) in
  spec_shared_columns (n - 2)
    (marginLeft (style_document (style options)))
    (shared_width options (Z.of_nat n)) ++
  [(position (quantity tbl), Some (column_maxWidth (quantity tbl)));
   (position (total tbl), Some (column_maxWidth (total tbl)))].

(** Where the callback of [columns.forEach] draws the cell of [index] and
    how wide: the x it sets the cursor to and its [maxWidth] *)
Definition column_place (options : InvoiceOptions) (length index : Z)
    (r : RowState) : number * number :=
  let tbl := table (style options) in
  if index <? length - 2 then (start r, row_maxWidth r)
  else if index =? length - 2
       then (position (quantity tbl), column_maxWidth (quantity tbl))
       else (position (total tbl), column_maxWidth (total tbl)).

(** The row is refused: none of its cells is drawn. *)
Definition rejects_row (ext : Externals) (options : InvoiceOptions)
    (type : RowType) (columns : list Cell) (s : Storage) : Prop :=
  drawn ext s (generateTableRow ext options type columns s) = [].


(** A held cell of the quantity column *)
Definition held_call : TextCall :=
  {| fontWeight := Some "normal"%string; colorCode := Some "secondary"%string;
     fontSize := None; align := None; color := None; marginTop := None;
     maxWidth := Some (num_Z 140); skipDown := Some true |}.

(** The [registerFont] call of the resolver *)
Definition fallback_registration (options : InvoiceOptions) : string * string :=
  (fallback_name (fallback (fonts (style options))),
   fallback_path (fallback (fonts (style options)))).

(** From [s] to [s'] the flag [storage.fonts.fallback.loaded] did not go
    back to [false], and the document received the resolver's [registerFont]
    call once if the flag went from [false] to [true], and no [registerFont]
    call otherwise. *)
Definition font_step (ext : Externals) (options : InvoiceOptions)
    (s s' : Storage) : Prop :=
  (fallback_loaded s = true -> fallback_loaded s' = true) /\
  registrations ext s' =
    registrations ext s ++
    (if negb (fallback_loaded s) && fallback_loaded s'
     then [fallback_registration options] else []).

(** From [s] to [s'] the document only received further calls. *)
Definition grows (ext : Externals) (options : InvoiceOptions)
    (s s' : Storage) : Prop :=
  (exists cells, texts ext s' = texts ext s ++ cells) /\
  font_step ext options s s'.

(** A sequence of [setText] calls *)
Definition draw_all (ext : Externals) (options : InvoiceOptions)
    (draws : list (value * TextCall)) (s : Storage) : Storage :=
  fold_left (fun s d => setText ext options (fst d) (snd d) s) draws s.

(** The resolver selects the fallback font for [v]. *)
Definition selects_fallback (ext : Externals) (options : InvoiceOptions)
    (v : value) : bool :=
  let f := fonts (style options) in
  fallback_enabled (fallback f)
  && RegExp_test (font_range (normal f)) (or_empty ext v)
  && negb (RegExp_test (fallback_range (fallback f)) (or_empty ext v)).

(** [2 ^ f] *)
Fixpoint pow2 (f : nat) : N :=
  match f with
  | O => 1
  | S f' => 2 * pow2 f'
  end.

(** A code unit among ["0"] .. ["9"] *)
Definition is_digit (c : N) : Prop := (48 <= c <= 57)%N.

(** The text ends with a point and two decimal digits. *)
Definition two_decimal_places (t : jsstring) : Prop :=
  exists (whole : jsstring) (d1 d2 : N),
    (d1 < 10)%N /\ (d2 < 10)%N /\
    t = whole ++ str "." ++ [digit d1; digit d2].

(** What [prettyPrice] appends: a space and the currency, if one is set *)
Definition currency_suffix (options : InvoiceOptions) : jsstring :=
  match currency (invoice options) with
  | Some (c :: cs) => str " " ++ c :: cs
  | _ => []
  end.

(** [51.6] as the binary format holds it *)
Definition double_51_6 : number :=
  num_frac 7262054399134925 140737488355328.

(** ** Views used by the further properties *)

Definition text_of (c : jsstring * number * number * option number)
    : jsstring :=
  let '(t, _, _, _) := c in t.

(** The texts of the [text] calls the document received, in order *)
Definition contents (ext : Externals) (s : Storage) : list jsstring :=
  map text_of (texts ext s).

(** The calls a method added to the document of [s], [s'] being the storage
    it returned *)
Definition issued (ext : Externals) (s s' : Storage) : list op :=
  skipn (List.length (doc_ops (getDocument ext s)))
    (doc_ops (getDocument ext s')).

(** The values a section hands to [setText], in the order of the calls *)
Definition line_values (l : Line) : list value :=
  label_colon l :: values_of l.

Definition header_values (options : InvoiceOptions) : list value :=
  VString (invoice_name (invoice options)) ::
  flat_map line_values (invoice_header (invoice options)).

Definition details_values (options : InvoiceOptions) (type : DetailsType)
    : list value :=
  flat_map line_values (invoice_lines options type).

Definition row_values (ext : Externals) (options : InvoiceOptions)
    (columns : list Cell) : list value :=
  map (fun c => VString (cell_text ext options (cell_value c) (cell_price c)))
    columns.

Definition total_values (ext : Externals) (options : InvoiceOptions)
    (t : Total) : list value :=
  [VString (total_label t);
   VString (cell_text ext options (total_value t) (total_price t))].

Definition parts_values (ext : Externals) (options : InvoiceOptions)
    : list value :=
  VString newline ::
  row_values ext options (details_header (details (invoice options))) ++
  flat_map (row_values ext options) (details_parts (details (invoice options))) ++
  flat_map (total_values ext options)
    (details_total (details (invoice options))).

Definition legal_values (options : InvoiceOptions) : list value :=
  map (fun l => VString (legal_value l)) (legal (invoice options)).

Definition document_values (ext : Externals) (options : InvoiceOptions)
    : list value :=
  header_values options ++
  details_values options Customer ++
  details_values options Seller ++
  parts_values ext options ++
  legal_values options.

(** From [s] to [s'] the values [vs] were drawn, one [text] call each, and
    the flag of the fallback font was set if one of them selects it. *)
Definition draws (ext : Externals) (options : InvoiceOptions)
    (vs : list value) (s s' : Storage) : Prop :=
  contents ext s' =
    contents ext s ++ map (valueOrTransliterate ext options) vs /\
  fallback_loaded s' =
    fallback_loaded s || existsb (selects_fallback ext options) vs.

(** The [registerFont] calls of [loadCustomFonts] *)
Definition custom_registrations (options : InvoiceOptions)
    : list (string * string) :=
  let f := fonts (style options) in
  (if truthy_opt (font_path (normal f))
   then [(font_name (normal f), default ""%string (font_path (normal f)))]
   else []) ++
  (if truthy_opt (font_path (bold f))
   then [(font_name (bold f), default ""%string (font_path (bold f)))]
   else []).

(** A stand-in for PDFKit that breaks the page: a text drawn at y 800 or
    below starts a new page and ends one line under its top margin. *)
Definition paging_ext : Externals :=
  {| page_width := page_width sample_ext;
     initial_y := initial_y sample_ext;
     text_y := fun d t x y al w =>
       if nge y (num_Z 800) then nadd (num_Z 72) (num_frac 289 25)
       else text_y sample_ext d t x y al w;
     image_y := image_y sample_ext;
     transliterate := transliterate sample_ext;
     shortest_repr := shortest_repr sample_ext |}.

(** A draw that advances the cursor *)
Definition advancing_call : TextCall :=
  {| fontWeight := None; colorCode := Some "secondary"%string;
     fontSize := None; align := None; color := None;
     marginTop := Some (num_Z 4); maxWidth := Some (num_Z 250);
     skipDown := None |}.

(** The storage of [total_line] after the [setText] of the label *)
Definition total_label_drawn (ext : Externals) (options : InvoiceOptions)
    (s : Storage) (t : Total) : Storage :=
  let tbl := table (style options) in
  setText ext options (VString (total_label t))
    {| fontWeight := Some "bold"%string; colorCode := Some "primary"%string;
       fontSize := None; align := None; color := None;
       marginTop := Some (num_Z 12);
       maxWidth := Some (column_maxWidth (quantity tbl));
       skipDown := Some true |}
    (setCursor X (position (quantity tbl)) s).

Definition x_and_y (c : jsstring * number * number * option number)
    : number * number :=
  let '(_, x, y, _) := c in (x, y).

(** A row whose first cell is empty *)
Definition row_with_empty_cell : list Cell :=
  [text_cell ""; number_cell 2; price_cell "53"].

Definition sample_total : Total :=
  {| total_label := str "Total"; total_value := VNumber (num_frac 516 10);
     total_price := Some true |}.

(** Options whose customer and seller hold no line *)
Definition options_without_details : InvoiceOptions :=
  {| style := default_style;
     invoice :=
       {| invoice_name := str "Invoice"; invoice_header := [];
          invoice_customer := []; invoice_seller := [];
          currency := None;
          details :=
            {| details_header := []; details_parts := [];
               details_total := [] |};
          legal := [] |} |}.

(** Where a details section starts: the left margin for the customer, the
    header's text position for the seller *)
Definition details_x (options : InvoiceOptions) (type : DetailsType) : number :=
  match type with
  | Customer => marginLeft (style_document (style options))
  | Seller => textPosition (header (style options))
  end.

(** The palette call of a draw: [fillColor] of the primary or the secondary
    colour, when the draw has no colour of its own *)
Definition palette_calls (options : InvoiceOptions) (o : TextCall) : list op :=
  if negb (truthy (default ""%string (color o))) then
    [OpFillColor
       (if (default "primary"%string (colorCode o) =? "primary")%string
        then primaryColor (text (style options))
        else secondaryColor (text (style options)))]
  else [].

(** The calls of one [setText], in order *)
Definition setText_calls (ext : Externals) (options : InvoiceOptions)
    (t : value) (o : TextCall) (s : Storage) : list op :=
  let f := fonts (style options) in
  palette_calls options o ++
  (if selects_fallback ext options t && negb (fallback_loaded s)
   then [OpRegisterFont (fallback_name (fallback f))
           (fallback_path (fallback f))]
   else []) ++
  [OpFont
     (if selects_fallback ext options t then fallback_name (fallback f)
      else fonts_name options
             (coerce_type (Some (default "normal"%string (fontWeight o)))));
   OpFillColor (default ""%string (color o));
   OpFontSize
     (if (default "regular"%string (fontSize o) =? "regular")%string
      then regularSize (text (style options))
      else headingSize (text (style options)));
   OpText (valueOrTransliterate ext options t) (cursor_x s)
     (nadd (cursor_y s) (default (num_Z 0) (marginTop o)))
     (default "left"%string (align o)) (maxWidth o)].

(** The palette code of a legal line: [legal.color || "primary"] *)
Definition legal_code (l : Legal) : string :=
  if truthy_opt (legal_color l) then default ""%string (legal_color l)
  else "primary"%string.

(** A legal line whose colour is not a palette code *)
Definition red_legal : Legal :=
  {| legal_value := str "Terms"; legal_weight := None;
     legal_color := Some "red"%string |}.

(** The [registerFont] call [(name, path)] is [r]. *)
Definition registration_eqb (r : string * string) (name path : string) : bool :=
  (name =? fst r)%string && (path =? snd r)%string.

(** Every [font] call of the name of [r] comes after a [registerFont] call
    of [r], [seen] telling whether one came before [ops]. *)
Fixpoint fonts_registered (r : string * string) (seen : bool) (ops : list op)
    : bool :=
  match ops with
  | [] => true
  | OpRegisterFont name path :: ops' =>
      fonts_registered r (seen || registration_eqb r name path) ops'
  | OpFont name :: ops' =>
      (negb (name =? fst r)%string || seen) && fonts_registered r seen ops'
  | _ :: ops' => fonts_registered r seen ops'
  end.

(** [r] was registered before [ops] or in [ops]. *)
Definition registered_after (r : string * string) (seen : bool)
    (ops : list op) : bool :=
  seen ||
  existsb (fun c => registration_eqb r (fst c) (snd c)) (registrations_of ops).

(** The fallback font is registered before each of its uses, and it is
    registered if the flag says so. *)
Definition fallback_registered_first (ext : Externals)
    (options : InvoiceOptions) (s : Storage) : Prop :=
  fonts_registered (fallback_registration options) false
    (doc_ops (getDocument ext s)) = true /\
  (fallback_loaded s = true ->
   registered_after (fallback_registration options) false
     (doc_ops (getDocument ext s)) = true).

(** The names of the [font] calls the document received *)
Fixpoint fonts_of (ops : list op) : list string :=
  match ops with
  | [] => []
  | OpFont name :: ops' => name :: fonts_of ops'
  | _ :: ops' => fonts_of ops'
  end.

(** The default options with the fallback font switched off *)
Definition options_without_fallback : InvoiceOptions :=
  {| style :=
       {| style_document := style_document default_style;
          fonts :=
            {| normal := normal (fonts default_style);
               bold := bold (fonts default_style);
               fallback :=
                 {| fallback_name := "Noto Sans";
                    fallback_path := "../res/fonts/NotoSans-Regular.ttf";
                    fallback_enabled := false;
                    fallback_range := above 1280;
                    fallback_transliterate := true |} |};
          header := header default_style;
          table := table default_style;
          text := text default_style |};
     invoice := sample_invoice (Some (str "EUR")) |}.

(** Every [font] call so far set the normal or the bold font. *)
Definition configured_fonts_only (ext : Externals) (options : InvoiceOptions)
    (s : Storage) : Prop :=
  Forall (fun name => name = font_name (normal (fonts (style options))) \/
                      name = font_name (bold (fonts (style options))))
    (fonts_of (doc_ops (getDocument ext s))).



(** * Properties *)

(** ** Arithmetic on [number] *)

Lemma nadd_0_r (x : number) : nadd x (num_Z 0) = x.
Proof.
  destruct x; simpl; try reflexivity.
  f_equal. apply Qcplus_0_r.
Qed.

Lemma num_Z_sub (a b : Z) : nsub (num_Z a) (num_Z b) = num_Z (a - b).
Proof.
  unfold nsub, num_Z; cbn [nopp nadd]. f_equal.
  apply Qc_is_canon. unfold Qcplus, Qcopp, Q2Qc; cbn [this].
  rewrite !Qred_correct.
  unfold Z.sub. rewrite inject_Z_plus, inject_Z_opp. reflexivity.
Qed.

Lemma ndiv_1 (x : number) : ndiv x (num_Z 1) = x.
Proof.
  destruct x; unfold num_Z; simpl; try reflexivity.
  f_equal. change (Q2Qc (inject_Z 1)) with 1%Qc. unfold Qcdiv.
  replace (/ 1)%Qc with 1%Qc by (apply Qc_is_canon; reflexivity).
  apply Qcmult_1_r.
Qed.

(** Dividing by zero never gives a finite number. *)
Lemma ndiv_by_zero (x : number) : is_finite (ndiv x (num_Z 0)) = false.
Proof.
  destruct x; simpl; try reflexivity.
  change (Q2Qc (inject_Z 0) ?= 0)%Qc with Eq.
  destruct (q ?= 0)%Qc; reflexivity.
Qed.


Lemma ngt_Num_0 (a : Qc) : ngt (Num a) (num_Z 0) = true <-> (0 < a)%Qc.
Proof.
  unfold ngt, num_Z; cbn [ncompare]. change (Q2Qc (inject_Z 0)) with 0%Qc.
  split; intros H.
  - apply (proj2 (Qcgt_alt a 0)). destruct (a ?= 0)%Qc; congruence.
  - apply (proj1 (Qcgt_alt a 0)) in H. rewrite H. reflexivity.
Qed.

(** ** The document and the storage under the methods *)

Lemma texts_of_app (a b : list op) : texts_of (a ++ b) = texts_of a ++ texts_of b.
Proof.
  induction a as [|o a IH]; simpl; [reflexivity|].
  destruct o; simpl; rewrite ?IH; reflexivity.
Qed.

Lemma registrations_of_app (a b : list op) :
  registrations_of (a ++ b) = registrations_of a ++ registrations_of b.
Proof.
  induction a as [|o a IH]; simpl; [reflexivity|].
  destruct o; simpl; rewrite ?IH; reflexivity.
Qed.

Ltac split_ifs :=
  repeat match goal with
    | |- context [if ?b then _ else _] => destruct b
    | |- context [match ?o with Some _ => _ | None => _ end] => destruct o
    end.

Section Frames.

Variable ext : Externals.
Variable options : InvoiceOptions.

Lemma texts_call (o : op) (s : Storage) :
  texts ext (call ext o s) = texts ext s ++ texts_of [o].
Proof. unfold texts, call; simpl. apply texts_of_app. Qed.

Lemma texts_call_text t x y al w (s : Storage) :
  texts ext (call_text ext t x y al w s) = texts ext s ++ [(t, x, y, w)].
Proof. unfold texts, call_text; simpl. apply texts_of_app. Qed.

Lemma registrations_call (o : op) (s : Storage) :
  registrations ext (call ext o s) =
  registrations ext s ++ registrations_of [o].
Proof. unfold registrations, call; simpl. apply registrations_of_app. Qed.

Lemma registrations_call_text t x y al w (s : Storage) :
  registrations ext (call_text ext t x y al w s) = registrations ext s.
Proof.
  unfold registrations, call_text; simpl.
  rewrite registrations_of_app. apply app_nil_r.
Qed.

(** The resolver leaves the cursor, the recorded heights and the document's
    position alone and issues no [text] call. *)
Lemma getFontOrFallback_frame type v s :
  let s' := snd (getFontOrFallback ext options type v s) in
  cursor_x s' = cursor_x s /\ cursor_y s' = cursor_y s /\
  customer_height s' = customer_height s /\
  seller_height s' = seller_height s /\
  doc_y (getDocument ext s') = doc_y (getDocument ext s) /\
  texts ext s' = texts ext s.
Proof.
  unfold getFontOrFallback.
  split_ifs; simpl; repeat split; try reflexivity.
  unfold texts; simpl. rewrite texts_of_app; simpl. apply app_nil_r.
Qed.

Lemma setText_draw_frame t o s :
  let s' := setText_draw ext options t o s in
  cursor_x s' = cursor_x s /\
  cursor_y s' = nadd (cursor_y s) (default (num_Z 0) (marginTop o)) /\
  customer_height s' = customer_height s /\
  seller_height s' = seller_height s /\
  texts ext s' =
    texts ext s ++
    [(valueOrTransliterate ext options t, cursor_x s,
      nadd (cursor_y s) (default (num_Z 0) (marginTop o)), maxWidth o)].
Proof.
  unfold setText_draw.
  match goal with
  | |- context [getFontOrFallback ext options ?w t ?s0] =>
      pose proof (getFontOrFallback_frame w t s0) as F;
      destruct (getFontOrFallback ext options w t s0) as [name s1]
  end.
  simpl in F. destruct F as (Fx & Fy & Fc & Fs & _ & Ft).
  cbn zeta. rewrite texts_call_text, !texts_call; simpl.
  rewrite !app_nil_r, Fx, Fy, Fc, Fs, Ft.
  split_ifs; simpl; rewrite ?texts_call, ?app_nil_r; auto.
Qed.

Lemma setText_readback_frame o s :
  let s' := setText_readback ext o s in
  cursor_x s' = cursor_x s /\
  customer_height s' = customer_height s /\
  seller_height s' = seller_height s /\
  fallback_loaded s' = fallback_loaded s /\
  document s' = document s.
Proof. unfold setText_readback. split_ifs; simpl; auto. Qed.

Lemma getDocument_readback o s :
  getDocument ext (setText_readback ext o s) = getDocument ext s.
Proof.
  unfold getDocument.
  destruct (setText_readback_frame o s) as (_ & _ & _ & _ & ->).
  reflexivity.
Qed.

Lemma setText_readback_cursor_y o s :
  cursor_y (setText_readback ext o s) =
  held_or_advanced o (cursor_y s) (doc_y (getDocument ext s)).
Proof.
  unfold setText_readback, held_or_advanced. split_ifs; reflexivity.
Qed.

Lemma setText_frame t o s :
  let s' := setText ext options t o s in
  cursor_x s' = cursor_x s /\
  customer_height s' = customer_height s /\
  seller_height s' = seller_height s /\
  texts ext s' =
    texts ext s ++
    [(valueOrTransliterate ext options t, cursor_x s,
      nadd (cursor_y s) (default (num_Z 0) (marginTop o)), maxWidth o)].
Proof.
  unfold setText; cbn zeta.
  destruct (setText_readback_frame o (setText_draw ext options t o s))
    as (Rx & Rc & Rs & _ & _).
  destruct (setText_draw_frame t o s) as (Dx & _ & Dc & Ds & Dt).
  unfold texts in *. rewrite getDocument_readback.
  rewrite Rx, Rc, Rs. auto.
Qed.

Lemma setText_cursor_y t o s :
  cursor_y (setText ext options t o s) =
  held_or_advanced o
    (nadd (cursor_y s) (default (num_Z 0) (marginTop o)))
    (doc_y (getDocument ext (setText ext options t o s))).
Proof.
  unfold setText. rewrite setText_readback_cursor_y, getDocument_readback.
  destruct (setText_draw_frame t o s) as (_ & -> & _). reflexivity.
Qed.

Lemma texts_setCursor axis v s : texts ext (setCursor axis v s) = texts ext s.
Proof. destruct axis; reflexivity. Qed.

Lemma generateLine_texts s : texts ext (generateLine ext options s) = texts ext s.
Proof.
  unfold generateLine. rewrite !texts_call; simpl.
  rewrite !app_nil_r. reflexivity.
Qed.

Lemma row_column_spec fw cc length r index column :
  let r' := row_column ext options fw cc length r index column in
  let x := fst (column_place options length index r) in
  let w := snd (column_place options length index r) in
  texts ext (row_storage r') =
    texts ext (row_storage r) ++
    [(valueOrTransliterate ext options
        (VString (cell_text ext options (cell_value column)
                    (cell_price column))),
      x, cursor_y (row_storage r), Some w)] /\
  start r' = nadd (start r) (nadd w (num_Z 10)) /\
  row_maxWidth r' = w /\
  maxY r' =
    (if nge (doc_y (getDocument ext (row_storage r'))) (maxY r)
     then doc_y (getDocument ext (row_storage r'))
     else maxY r).
Proof.
  unfold row_column, column_place.
  destruct (index <? length - 2); [|destruct (index =? length - 2)];
    cbn -[setText nadd nge];
    match goal with
    | |- context [setText ext options ?t ?o ?s0] =>
        destruct (setText_frame t o s0) as (_ & _ & _ & ->)
    end;
    cbn -[nadd nge valueOrTransliterate setText];
    rewrite nadd_0_r; repeat split; try reflexivity.
Qed.

Lemma drawn_app s s' cells :
  texts ext s' = texts ext s ++ cells -> drawn ext s s' = cells.
Proof.
  unfold drawn. intros ->.
  rewrite skipn_app, skipn_all, Nat.sub_diag. reflexivity.
Qed.

Lemma row_columns_app fw cc length a b : forall index r,
  row_columns ext options fw cc length index (a ++ b) r =
  row_columns ext options fw cc length (index + Z.of_nat (List.length a)) b
    (row_columns ext options fw cc length index a r).
Proof.
  induction a as [|c a IH]; intros index r; simpl List.length.
  - rewrite Z.add_0_r. reflexivity.
  - cbn [app row_columns]. rewrite IH. f_equal. lia.
Qed.

(** The columns before the last two *)
Lemma row_columns_shared fw cc length : forall columns index r,
  index + Z.of_nat (List.length columns) <= length - 2 ->
  let r' := row_columns ext options fw cc length index columns r in
  exists cells,
    texts ext (row_storage r') = texts ext (row_storage r) ++ cells /\
    map x_and_width cells =
      spec_shared_columns (List.length columns) (start r) (row_maxWidth r).
Proof.
  induction columns as [|c columns IH]; intros index r Hle; cbn zeta.
  - exists []. rewrite app_nil_r. split; reflexivity.
  - cbn [row_columns]. simpl List.length in Hle.
    destruct (row_column_spec fw cc length r index c) as (Ht & Hs & Hw & _).
    unfold column_place in Ht, Hs, Hw.
    replace (index <? length - 2) with true in Ht, Hs, Hw
      by (symmetry; apply Z.ltb_lt; lia).
    cbn [fst snd] in Ht, Hs, Hw.
    destruct (IH (index + 1)
                (row_column ext options fw cc length r index c))
      as (cells & Hcells & Hmap); [lia|].
    eexists (_ :: cells). split.
    + rewrite Hcells, Ht, <- app_assoc. reflexivity.
    + cbn [map x_and_width List.length spec_shared_columns].
      rewrite Hmap, Hs, Hw. reflexivity.
Qed.

(** The last two columns *)
Lemma row_columns_last_two fw cc length cq ct r :
  let tbl := table (style options) in
  let r' := row_columns ext options fw cc length (length - 2) [cq; ct] r in
  exists cells,
    texts ext (row_storage r') = texts ext (row_storage r) ++ cells /\
    map x_and_width cells =
      [(position (quantity tbl), Some (column_maxWidth (quantity tbl)));
       (position (total tbl), Some (column_maxWidth (total tbl)))].
Proof.
  cbn zeta. cbn [row_columns].
  set (r1 := row_column ext options fw cc length r (length - 2) cq).
  destruct (row_column_spec fw cc length r (length - 2) cq) as (Hq & _).
  destruct (row_column_spec fw cc length r1 (length - 2 + 1) ct) as (Ht & _).
  fold r1 in Hq. unfold column_place in Hq, Ht.
  rewrite Z.ltb_irrefl, Z.eqb_refl in Hq.
  replace (length - 2 + 1 <? length - 2) with false in Ht
    by (symmetry; apply Z.ltb_ge; lia).
  replace (length - 2 + 1 =? length - 2) with false in Ht
    by (symmetry; apply Z.eqb_neq; lia).
  cbn [fst snd] in Hq, Ht.
  eexists [_; _]. split.
  - rewrite Ht, Hq, <- app_assoc. reflexivity.
  - reflexivity.
Qed.

Lemma generateTableRow_texts type columns s :
  texts ext (generateTableRow ext options type columns s) =
  texts ext (generateTableRow_cells ext options type columns s).
Proof.
  unfold generateTableRow. destruct type; [apply generateLine_texts|reflexivity].
Qed.

(** A row of two columns or more is laid out as section 4.4 says. *)
Lemma generateTableRow_layout type columns s :
  (2 <= List.length columns)%nat ->
  map x_and_width
    (drawn ext s (generateTableRow ext options type columns s)) =
  spec_row_layout options (List.length columns).
Proof.
  intros Hn.
  set (n := List.length columns) in *.
  assert (Hsplit : columns = firstn (n - 2) columns ++ skipn (n - 2) columns)
    by (symmetry; apply firstn_skipn).
  assert (Hfirst : List.length (firstn (n - 2) columns) = (n - 2)%nat)
    by (rewrite length_firstn; unfold n; lia).
  assert (Hlast : List.length (skipn (n - 2) columns) = 2%nat)
    by (rewrite length_skipn; unfold n; lia).
  destruct (skipn (n - 2) columns) as [|cq [|ct [|? ?]]] eqn:Hskip;
    simpl in Hlast; try lia.
  unfold drawn. rewrite generateTableRow_texts.
  change (skipn _ _) with
    (drawn ext s (generateTableRow_cells ext options type columns s)).
  unfold generateTableRow_cells. cbn zeta.
  fold n. rewrite Hsplit at 2.
  rewrite row_columns_app, Hfirst.
  match goal with
  | |- context [row_columns _ _ ?fw ?cc ?len 0 (firstn ?k ?l) ?r0] =>
      destruct (row_columns_shared fw cc len (firstn k l) 0 r0)
        as (shared & Hshared & Hmap); [rewrite Hfirst; lia|];
      set (r1 := row_columns ext options fw cc len 0 (firstn k l) r0) in *
  end.
  replace (0 + Z.of_nat (n - 2)) with (Z.of_nat n - 2) by lia.
  match goal with
  | |- context [row_columns _ _ ?fw ?cc ?len _ [cq; ct] r1] =>
      destruct (row_columns_last_two fw cc len cq ct r1)
        as (last & Hlast2 & Hmap2)
  end.
  erewrite drawn_app.
  2:{ rewrite texts_setCursor, Hlast2, Hshared.
      rewrite <- app_assoc. reflexivity. }
  rewrite map_app, Hmap, Hmap2, Hfirst. reflexivity.
Qed.

End Frames.

(** ** The font resolver *)

Lemma contains_match_test (re : RegExp) (t : jsstring) :
  RegExp_test re t = true <-> contains_match re t.
Proof. unfold RegExp_test, contains_match. apply existsb_exists. Qed.

Lemma coerce_type_key (k : FontKey) : coerce_type (Some (key_string k)) = k.
Proof. destruct k; reflexivity. Qed.

(** The name [getFontOrFallback] returns, as one expression *)
Lemma getFontOrFallback_name ext options type v s :
  let f := fonts (style options) in
  fst (getFontOrFallback ext options type v s) =
  if fallback_enabled (fallback f)
     && RegExp_test (font_range (normal f)) (or_empty ext v)
     && negb (RegExp_test (fallback_range (fallback f)) (or_empty ext v))
  then fallback_name (fallback f)
  else fonts_name options (coerce_type type).
Proof.
  unfold getFontOrFallback; cbn zeta.
  destruct (fallback_enabled _); simpl; [|reflexivity].
  destruct (RegExp_test (font_range _) _); simpl; [|reflexivity].
  destruct (RegExp_test (fallback_range _) _); reflexivity.
Qed.

(** C1. For a weight among normal and bold and any text, [getFontOrFallback]
    returns the fallback font's name when the fallback is enabled, the text
    contains a character the normal font's range pattern matches and none
    the fallback font's range pattern matches, and the configured name of
    the weight in every other case; so it returns the name of the weight for
    a text with no character the normal pattern matches, and where the two
    names differ it returns the fallback name exactly in the first case. *)
Theorem getFontOrFallback_decision :
  forall ext options (k : FontKey) (t : jsstring) (s : Storage),
    let f := fonts (style options) in
    let selected :=
      fallback_enabled (fallback f) = true /\
      contains_match (font_range (normal f)) t /\
      ~ contains_match (fallback_range (fallback f)) t in
    let name :=
      fst (getFontOrFallback ext options (Some (key_string k)) (VString t) s) in
    (selected -> name = fallback_name (fallback f)) /\
    (~ selected -> name = fonts_name options k) /\
    (~ contains_match (font_range (normal f)) t ->
     name = fonts_name options k) /\
    (fallback_name (fallback f) <> fonts_name options k ->
     (name = fallback_name (fallback f) <-> selected)).
Proof.
  intros ext options k t s f selected name.
  assert (Hname : name =
            if fallback_enabled (fallback f)
               && RegExp_test (font_range (normal f)) t
               && negb (RegExp_test (fallback_range (fallback f)) t)
            then fallback_name (fallback f) else fonts_name options k).
  { unfold name. rewrite getFontOrFallback_name, coerce_type_key.
    reflexivity. }
  assert (Hsel : selected <->
            fallback_enabled (fallback f)
            && RegExp_test (font_range (normal f)) t
            && negb (RegExp_test (fallback_range (fallback f)) t) = true).
  { unfold selected.
    rewrite !andb_true_iff, negb_true_iff, <- not_true_iff_false.
    rewrite !contains_match_test. tauto. }
  assert (Hyes : selected -> name = fallback_name (fallback f)).
  { intros H. apply Hsel in H. rewrite Hname, H. reflexivity. }
  assert (Hno : ~ selected -> name = fonts_name options k).
  { intros H. rewrite Hsel in H. apply not_true_is_false in H.
    rewrite Hname, H. reflexivity. }
  split; [exact Hyes|]. split; [exact Hno|]. split.
  - intros H. apply Hno. unfold selected. tauto.
  - intros Hdiff. split; [|exact Hyes]. intros Heq.
    destruct (fallback_enabled (fallback f)
              && RegExp_test (font_range (normal f)) t
              && negb (RegExp_test (fallback_range (fallback f)) t)) eqn:E.
    + apply Hsel. reflexivity.
    + rewrite Hname in Heq. congruence.
Qed.

Lemma getFontOrFallback_decision_witness :
  (fallback_enabled (fallback (fonts default_style)) = true /\
   contains_match (font_range (normal (fonts default_style))) cyrillic_text /\
   ~ contains_match (fallback_range (fallback (fonts default_style)))
       cyrillic_text) /\
  fst (getFontOrFallback sample_ext sample_options (Some "bold"%string)
         (VString cyrillic_text) initial_storage) = "Noto Sans"%string.
Proof.
  assert (H : fallback_enabled (fallback (fonts default_style)) = true /\
              contains_match (font_range (normal (fonts default_style)))
                cyrillic_text /\
              ~ contains_match (fallback_range (fallback (fonts default_style)))
                  cyrillic_text).
  { split; [reflexivity|]. split.
    - apply contains_match_test. reflexivity.
    - intros C. apply contains_match_test in C. discriminate C. }
  split; [exact H|].
  exact (proj1 (getFontOrFallback_decision sample_ext sample_options KBold
                  cyrillic_text initial_storage) H).
Defined.

(** C10. A weight that is neither "normal" nor "bold", the absent weight
    included, is resolved as "normal": the call returns what it returns for
    "normal", name and storage, and the name is the normal font's or the
    fallback font's. *)
Theorem getFontOrFallback_unknown_weight :
  forall ext options (type : option string) (v : value) (s : Storage),
    type <> Some "normal"%string ->
    type <> Some "bold"%string ->
    coerce_type type = KNormal /\
    getFontOrFallback ext options type v s =
      getFontOrFallback ext options (Some "normal"%string) v s /\
    (fst (getFontOrFallback ext options type v s) =
       font_name (normal (fonts (style options))) \/
     fst (getFontOrFallback ext options type v s) =
       fallback_name (fallback (fonts (style options)))).
Proof.
  intros ext options type v s Hn Hb.
  assert (Hk : coerce_type type = KNormal).
  { destruct type as [w|]; [|reflexivity]. unfold coerce_type.
    destruct (String.eqb_spec w "normal"); [congruence|].
    destruct (String.eqb_spec w "bold"); [congruence|]. reflexivity. }
  split; [exact Hk|]. split.
  - unfold getFontOrFallback. rewrite Hk. reflexivity.
  - rewrite getFontOrFallback_name, Hk. cbn zeta.
    destruct (_ && _ && _); [right|left]; reflexivity.
Qed.

Lemma getFontOrFallback_unknown_weight_witness :
  (None <> Some "normal"%string /\ None <> Some "bold"%string) /\
  getFontOrFallback sample_ext sample_options None (VString cyrillic_text)
    initial_storage =
  getFontOrFallback sample_ext sample_options (Some "normal"%string)
    (VString cyrillic_text) initial_storage.
Proof.
  split; [split; discriminate|].
  exact (proj1 (proj2 (getFontOrFallback_unknown_weight sample_ext
                         sample_options None (VString cyrillic_text)
                         initial_storage
                         ltac:(discriminate) ltac:(discriminate)))).
Defined.

(** ** The text block renderer *)



(** ** The table row layout *)

(** C2. For a row of [N >= 3] columns the cells are drawn, in order, at the
    positions and with the widths of section 4.4: columns [0 .. N-3] from the
    left margin on, each [(textPosition - marginLeft - marginRight) / (N - 2)]
    wide and that width plus 10 to the right of the one before, then the
    quantity column and the total column at their configured positions and
    widths. For [N = 3] the first column is exactly
    [textPosition - marginLeft - marginRight] wide. *)
Theorem generateTableRow_column_layout :
  forall ext options (type : RowType) (columns : list Cell) (s : Storage),
    (3 <= List.length columns)%nat ->
    let d := style_document (style options) in
    let tbl := table (style options) in
    map x_and_width
      (drawn ext s (generateTableRow ext options type columns s)) =
    spec_row_layout options (List.length columns) /\
    shared_width options (Z.of_nat (List.length columns)) =
      ndiv (nsub (nsub (textPosition (header (style options))) (marginLeft d))
              (marginRight d))
        (num_Z (Z.of_nat (List.length columns) - 2)) /\
    (List.length columns = 3%nat ->
     map x_and_width
       (drawn ext s (generateTableRow ext options type columns s)) =
     [(marginLeft d,
       Some (nsub (nsub (textPosition (header (style options))) (marginLeft d))
               (marginRight d)));
      (position (quantity tbl), Some (column_maxWidth (quantity tbl)));
      (position (total tbl), Some (column_maxWidth (total tbl)))]).
Proof.
  intros ext options type columns s Hn d tbl.
  assert (H : map x_and_width
                (drawn ext s (generateTableRow ext options type columns s)) =
              spec_row_layout options (List.length columns))
    by (apply generateTableRow_layout; lia).
  split; [exact H|]. split.
  { unfold shared_width. rewrite num_Z_sub. reflexivity. }
  intros H3. rewrite H, H3.
  unfold spec_row_layout, shared_width. cbn [Nat.sub spec_shared_columns app].
  change (Z.of_nat 3) with 3. rewrite num_Z_sub.
  change (3 - 2) with 1. rewrite ndiv_1. reflexivity.
Qed.

Lemma generateTableRow_column_layout_witness :
  (3 <= List.length wrapping_row)%nat /\
  map x_and_width
    (drawn sample_ext initial_storage
       (generateTableRow sample_ext sample_options Row wrapping_row
          initial_storage)) =
  spec_row_layout sample_options (List.length wrapping_row).
Proof.
  split; [simpl; lia|].
  exact (proj1 (generateTableRow_column_layout sample_ext sample_options Row
                  wrapping_row initial_storage ltac:(simpl; lia))).
Defined.

(** C3, as the code has it. A row of exactly two columns raises no error
    and is not refused: its first cell is drawn at the quantity position
    with the quantity width and its second cell at the total position with the
    total width. The quotient by [N - 2 = 0] is not a finite number, and no
    cell is given it as its width. *)
Theorem generateTableRow_two_columns :
  forall ext options (type : RowType) (c0 c1 : Cell) (s : Storage),
    let tbl := table (style options) in
    map x_and_width
      (drawn ext s (generateTableRow ext options type [c0; c1] s)) =
    [(position (quantity tbl), Some (column_maxWidth (quantity tbl)));
     (position (total tbl), Some (column_maxWidth (total tbl)))] /\
    is_finite (shared_width options 2) = false.
Proof.
  intros ext options type c0 c1 s tbl. split.
  - rewrite generateTableRow_layout by (simpl; lia). reflexivity.
  - unfold shared_width. rewrite num_Z_sub. apply ndiv_by_zero.
Qed.


(** The claim C3 fails on a row of two columns: the row is drawn, at the
    quantity and total positions of the default options. *)
Lemma two_column_row_is_drawn :
  ~ rejects_row sample_ext sample_options Row two_column_row initial_storage /\
  map x_and_width
    (drawn sample_ext initial_storage
       (generateTableRow sample_ext sample_options Row two_column_row
          initial_storage)) =
  [(num_Z 330, Some (num_Z 140)); (num_Z 490, Some (num_Z 80))].
Proof.
  assert (H : map x_and_width
                (drawn sample_ext initial_storage
                   (generateTableRow sample_ext sample_options Row
                      two_column_row initial_storage)) =
              [(num_Z 330, Some (num_Z 140)); (num_Z 490, Some (num_Z 80))])
    by (rewrite generateTableRow_layout by (simpl; lia); reflexivity).
  split; [|exact H].
  unfold rejects_row. intros Hnone. rewrite Hnone in H. discriminate H.
Qed.

(** ** The height of a row *)






Section RowHeight.

Variable ext : Externals.
Variable options : InvoiceOptions.



End RowHeight.





(** ** What every method does to the document *)

Section Grows.

Variable ext : Externals.
Variable options : InvoiceOptions.

Lemma grows_refl s : grows ext options s s.
Proof.
  split; [exists []; symmetry; apply app_nil_r|].
  split; [auto|]. destruct (fallback_loaded s); symmetry; apply app_nil_r.
Qed.

Lemma grows_trans s1 s2 s3 : grows ext options s1 s2 -> grows ext options s2 s3 -> grows ext options s1 s3.
Proof.
  intros ((c1 & T1) & L1 & R1) ((c2 & T2) & L2 & R2).
  split; [exists (c1 ++ c2); rewrite T2, T1, app_assoc; reflexivity|].
  split; [auto|].
  rewrite R2, R1, <- app_assoc. f_equal.
  destruct (fallback_loaded s1), (fallback_loaded s2), (fallback_loaded s3);
    simpl in *; try reflexivity;
    try (specialize (L1 eq_refl)); try (specialize (L2 eq_refl));
    discriminate.
Qed.

(** A step that keeps the flag and adds no [registerFont] call *)
Lemma grows_quiet s s' cells :
  texts ext s' = texts ext s ++ cells ->
  registrations ext s' = registrations ext s ->
  fallback_loaded s' = fallback_loaded s ->
  grows ext options s s'.
Proof.
  intros T R L. split; [exists cells; exact T|].
  split; [congruence|].
  rewrite R, L. destruct (fallback_loaded s); symmetry; apply app_nil_r.
Qed.

Lemma grows_call o s :
  registrations_of [o] = [] -> grows ext options s (call ext o s).
Proof.
  intros H. apply grows_quiet with (cells := texts_of [o]).
  - apply texts_call.
  - rewrite registrations_call, H. apply app_nil_r.
  - reflexivity.
Qed.

Lemma grows_call_text t x y al w s : grows ext options s (call_text ext t x y al w s).
Proof.
  apply grows_quiet with (cells := [(t, x, y, w)]).
  - apply texts_call_text.
  - apply registrations_call_text.
  - reflexivity.
Qed.

Lemma grows_call_image path x y w h s :
  grows ext options s (call_image ext path x y w h s).
Proof.
  apply grows_quiet with (cells := []); try reflexivity;
    unfold texts, registrations, call_image; simpl;
    rewrite ?texts_of_app, ?registrations_of_app; simpl;
    rewrite !app_nil_r; reflexivity.
Qed.

Lemma grows_set_cursor_y v s : grows ext options s (set_cursor_y v s).
Proof.
  apply grows_quiet with (cells := []); try reflexivity.
  symmetry; apply app_nil_r.
Qed.

Lemma grows_setCursor axis v s : grows ext options s (setCursor axis v s).
Proof.
  apply grows_quiet with (cells := []); destruct axis; try reflexivity;
    symmetry; apply app_nil_r.
Qed.

Lemma grows_set_height_of type v s : grows ext options s (set_height_of type v s).
Proof.
  apply grows_quiet with (cells := []); destruct type; try reflexivity;
    symmetry; apply app_nil_r.
Qed.

Lemma grows_fold_left {A : Type} (f : Storage -> A -> Storage) :
  (forall s x, grows ext options s (f s x)) ->
  forall l s, grows ext options s (fold_left f l s).
Proof.
  intros Hf. induction l as [|x l IH]; intros s; simpl.
  - apply grows_refl.
  - eapply grows_trans; [apply Hf|apply IH].
Qed.

Lemma font_step_getFontOrFallback type v s :
  font_step ext options s (snd (getFontOrFallback ext options type v s)).
Proof.
  assert (Q : font_step ext options s s).
  { split; [auto|].
    destruct (fallback_loaded s); symmetry; apply app_nil_r. }
  unfold getFontOrFallback; cbn zeta.
  destruct (fallback_enabled _); simpl; [|exact Q].
  destruct (RegExp_test (font_range _) _); simpl; [|exact Q].
  destruct (RegExp_test (fallback_range _) _); simpl; [exact Q|].
  destruct (fallback_loaded s) eqn:L; simpl; [exact Q|].
  split; [reflexivity|]. rewrite L. simpl.
  change (registrations ext (set_fallback_loaded true ?x))
    with (registrations ext x).
  rewrite registrations_call. reflexivity.
Qed.

Lemma grows_getFontOrFallback type v s :
  grows ext options s (snd (getFontOrFallback ext options type v s)).
Proof.
  split; [|apply font_step_getFontOrFallback].
  destruct (getFontOrFallback_frame ext options type v s)
    as (_ & _ & _ & _ & _ & ->).
  exists []. symmetry; apply app_nil_r.
Qed.

Ltac grows_step :=
  first
    [ apply grows_refl
    | apply grows_call; reflexivity
    | apply grows_call_text
    | apply grows_call_image
    | apply grows_set_cursor_y
    | apply grows_setCursor
    | apply grows_set_height_of ].

Lemma grows_setText_draw t o s :
  grows ext options s (setText_draw ext options t o s).
Proof.
  unfold setText_draw.
  match goal with
  | |- context [getFontOrFallback ext options ?w t ?s0] =>
      pose proof (grows_getFontOrFallback w t s0) as G;
      destruct (getFontOrFallback ext options w t s0) as [name s1]
  end.
  cbn [snd] in G. cbn zeta.
  eapply grows_trans; [|apply grows_call_text].
  do 3 (eapply grows_trans; [|apply grows_call; reflexivity]).
  eapply grows_trans; [|exact G].
  eapply grows_trans; [apply grows_set_cursor_y|].
  destruct (negb _); [destruct (_ =? _)%string|]; grows_step.
Qed.

Lemma grows_setText_readback o s :
  grows ext options s (setText_readback ext o s).
Proof.
  unfold setText_readback.
  destruct (skipDown o) as [[|]|]; [destruct (ngt _ _)| |];
    cbn zeta;
    first [ apply grows_set_cursor_y
          | eapply grows_trans; [|apply grows_set_cursor_y];
            apply grows_set_cursor_y ].
Qed.

Lemma grows_setText t o s : grows ext options s (setText ext options t o s).
Proof.
  unfold setText.
  eapply grows_trans; [apply grows_setText_draw|apply grows_setText_readback].
Qed.

Lemma grows_draw_all draws s :
  grows ext options s (draw_all ext options draws s).
Proof. apply grows_fold_left. intros; apply grows_setText. Qed.

Lemma grows_generateHeader s :
  grows ext options s (generateHeader ext options s).
Proof.
  unfold generateHeader. cbn zeta.
  eapply grows_trans;
    [|apply grows_fold_left; intros;
      eapply grows_trans;
        [apply grows_setText
        |apply grows_fold_left; intros; apply grows_setText]].
  eapply grows_trans; [|apply grows_setText].
  do 2 (eapply grows_trans; [|apply grows_setCursor]).
  destruct (header_image _) as [image|]; [destruct (truthy _)|];
    try (eapply grows_trans; [|apply grows_call_image]);
    (eapply grows_trans; [|apply grows_call; reflexivity]);
    apply grows_call; reflexivity.
Qed.

Lemma grows_details_line s line :
  grows ext options s (details_line ext options s line).
Proof.
  unfold details_line. cbn zeta.
  eapply grows_trans;
    [apply grows_setText
    |apply grows_fold_left; intros; apply grows_setText].
Qed.

Lemma grows_generateDetails type s :
  grows ext options s (generateDetails ext options type s).
Proof.
  unfold generateDetails. cbn zeta.
  eapply grows_trans; [|apply grows_set_height_of].
  eapply grows_trans;
    [|apply grows_fold_left; intros; apply grows_details_line].
  eapply grows_trans; [apply grows_setCursor|].
  destruct type; apply grows_setCursor.
Qed.

Lemma grows_generateLine s : grows ext options s (generateLine ext options s).
Proof.
  unfold generateLine. cbn zeta.
  do 5 (eapply grows_trans; [|apply grows_call; reflexivity]).
  apply grows_set_cursor_y.
Qed.

Lemma grows_row_column fw cc length r index column :
  grows ext options (row_storage r)
    (row_storage (row_column ext options fw cc length r index column)).
Proof.
  unfold row_column.
  destruct (index <? length - 2); [|destruct (index =? length - 2)];
    cbn -[setText];
    (eapply grows_trans; [|apply grows_setText]);
    apply (grows_setCursor X).
Qed.

Lemma grows_row_columns fw cc length : forall columns index r,
  grows ext options (row_storage r)
    (row_storage (row_columns ext options fw cc length index columns r)).
Proof.
  induction columns as [|c columns IH]; intros index r; cbn [row_columns].
  - apply grows_refl.
  - eapply grows_trans; [apply grows_row_column|apply IH].
Qed.

Lemma grows_generateTableRow_cells type columns s :
  grows ext options s (generateTableRow_cells ext options type columns s).
Proof.
  unfold generateTableRow_cells. cbn zeta.
  eapply grows_trans; [|apply grows_setCursor].
  eapply grows_trans; [|apply grows_row_columns].
  cbn [row_start row_storage].
  eapply grows_trans; apply grows_set_cursor_y.
Qed.

Lemma grows_generateTableRow type columns s :
  grows ext options s (generateTableRow ext options type columns s).
Proof.
  unfold generateTableRow. cbn zeta.
  eapply grows_trans; [apply grows_generateTableRow_cells|].
  destruct type; [apply grows_generateLine|apply grows_refl].
Qed.

Lemma grows_total_line s t : grows ext options s (total_line ext options s t).
Proof.
  unfold total_line. cbn zeta.
  eapply grows_trans; [|apply grows_setText].
  eapply grows_trans; [|apply grows_setCursor].
  eapply grows_trans; [|apply grows_setText].
  apply grows_setCursor.
Qed.

Lemma grows_generateParts s : grows ext options s (generateParts ext options s).
Proof.
  unfold generateParts. cbn zeta.
  eapply grows_trans;
    [|apply grows_fold_left; intros; apply grows_total_line].
  eapply grows_trans; [|apply grows_set_cursor_y].
  eapply grows_trans;
    [|apply grows_fold_left; intros; apply grows_generateTableRow].
  eapply grows_trans; [|apply grows_generateTableRow].
  eapply grows_trans; [|apply grows_setText].
  apply grows_setCursor.
Qed.

Lemma grows_legal_line s l : grows ext options s (legal_line ext options s l).
Proof.
  unfold legal_line. cbn zeta.
  eapply grows_trans; [|apply grows_setText]. apply grows_setCursor.
Qed.

Lemma grows_generateLegal s : grows ext options s (generateLegal ext options s).
Proof.
  unfold generateLegal. cbn zeta.
  eapply grows_trans;
    [|apply grows_fold_left; intros; apply grows_legal_line].
  apply grows_set_cursor_y.
Qed.

(** [generateBuffer] once the custom fonts are registered *)
Lemma grows_generateBuffer s :
  grows ext options
    (loadCustomFonts ext options (set_document (getDocument ext s) s))
    (generateBuffer ext options s).
Proof.
  unfold generateBuffer. cbn zeta.
  eapply grows_trans; [|apply grows_generateLegal].
  eapply grows_trans; [|apply grows_generateParts].
  eapply grows_trans; [|apply grows_generateDetails].
  eapply grows_trans; [|apply grows_generateDetails].
  apply grows_generateHeader.
Qed.

End Grows.

(** ** The one registration of the fallback font *)

Lemma getFontOrFallback_not_selected ext options type v s :
  selects_fallback ext options v = false ->
  snd (getFontOrFallback ext options type v s) = s.
Proof.
  unfold selects_fallback, getFontOrFallback; cbn zeta.
  destruct (fallback_enabled _); simpl; [|reflexivity].
  destruct (RegExp_test (font_range _) _); simpl; [|reflexivity].
  destruct (RegExp_test (fallback_range _) _); simpl; [reflexivity|].
  discriminate.
Qed.

Lemma getFontOrFallback_selected ext options type v s :
  selects_fallback ext options v = true ->
  fallback_loaded (snd (getFontOrFallback ext options type v s)) = true.
Proof.
  unfold selects_fallback, getFontOrFallback; cbn zeta.
  destruct (fallback_enabled _); simpl; [|discriminate].
  destruct (RegExp_test (font_range _) _); simpl; [|discriminate].
  destruct (RegExp_test (fallback_range _) _); simpl; [discriminate|].
  intros _. destruct (fallback_loaded s) eqn:L; simpl; [exact L|reflexivity].
Qed.

(** C7. Over any sequence of draws the flag [storage.fonts.fallback.loaded]
    never goes back from [true] to [false], and the document receives the
    [registerFont] call of the fallback font once if the flag went from
    [false] to [true] and not at all otherwise. Once the flag is [true],
    [getFontOrFallback] issues no [registerFont] call; while it is [false],
    the first call that selects the fallback font issues the call and sets
    the flag. In a whole [generateBuffer] run the document receives at most
    one [registerFont] call besides those of [loadCustomFonts]. *)
Theorem fallback_registered_at_most_once :
  forall ext options (draws : list (value * TextCall)) (s : Storage),
    let s' := draw_all ext options draws s in
    (fallback_loaded s = true -> fallback_loaded s' = true) /\
    registrations ext s' =
      registrations ext s ++
      (if negb (fallback_loaded s) && fallback_loaded s'
       then [fallback_registration options] else []) /\
    (forall type v,
       fallback_loaded s = true ->
       fallback_loaded (snd (getFontOrFallback ext options type v s)) = true /\
       registrations ext (snd (getFontOrFallback ext options type v s)) =
         registrations ext s) /\
    (forall type v,
       fallback_loaded s = false ->
       selects_fallback ext options v = true ->
       fallback_loaded (snd (getFontOrFallback ext options type v s)) = true /\
       registrations ext (snd (getFontOrFallback ext options type v s)) =
         registrations ext s ++ [fallback_registration options]) /\
    (List.length
       (registrations ext (generateBuffer ext options initial_storage)) <=
     List.length
       (registrations ext
          (loadCustomFonts ext options
             (set_document (new_document ext) initial_storage))) + 1)%nat.
Proof.
  intros ext options draws s s'.
  destruct (grows_draw_all ext options draws s) as (_ & Hkeep & Hregs).
  split; [exact Hkeep|]. split; [exact Hregs|]. split; [|split].
  - intros type v L.
    destruct (font_step_getFontOrFallback ext options type v s) as (K & R).
    split; [auto|]. rewrite R, L. apply app_nil_r.
  - intros type v L Hsel.
    destruct (font_step_getFontOrFallback ext options type v s) as (K & R).
    pose proof (getFontOrFallback_selected ext options type v s Hsel) as L'.
    split; [exact L'|]. rewrite R, L, L'. reflexivity.
  - destruct (grows_generateBuffer ext options initial_storage)
      as (_ & _ & R).
    change (getDocument ext initial_storage) with (new_document ext) in R.
    rewrite R, length_app.
    match goal with
    | |- context [if ?b then _ else _] => destruct b
    end; simpl; lia.
Qed.

Lemma fallback_registered_at_most_once_witness :
  fallback_loaded
    (snd (getFontOrFallback sample_ext sample_options (Some "normal"%string)
            (VString cyrillic_text) initial_storage)) = true /\
  registrations sample_ext
    (snd (getFontOrFallback sample_ext sample_options (Some "bold"%string)
            (VString cyrillic_text)
            (snd (getFontOrFallback sample_ext sample_options
                    (Some "normal"%string) (VString cyrillic_text)
                    initial_storage)))) =
  registrations sample_ext
    (snd (getFontOrFallback sample_ext sample_options (Some "normal"%string)
            (VString cyrillic_text) initial_storage)).
Proof.
  assert (L : fallback_loaded
                (snd (getFontOrFallback sample_ext sample_options
                        (Some "normal"%string) (VString cyrillic_text)
                        initial_storage)) = true) by reflexivity.
  split; [exact L|].
  exact (proj2 (proj1 (proj2 (proj2
           (fallback_registered_at_most_once sample_ext sample_options []
              (snd (getFontOrFallback sample_ext sample_options
                      (Some "normal"%string) (VString cyrillic_text)
                      initial_storage)))))
           (Some "bold"%string) (VString cyrillic_text) L)).
Defined.

(** ** Where the table and its rows start *)

Lemma hd_drawn ext s s1 s' c :
  texts ext s1 = texts ext s ++ [c] ->
  (exists cells, texts ext s' = texts ext s1 ++ cells) ->
  hd_error (drawn ext s s') = Some c.
Proof.
  intros H1 (cells & H2).
  unfold drawn. rewrite H2, H1, <- app_assoc.
  rewrite skipn_app, skipn_all, Nat.sub_diag. reflexivity.
Qed.

Lemma last_nonempty {A : Type} (l : list A) (a d d' : A) :
  last (a :: l) d = last (a :: l) d'.
Proof.
  revert a. induction l as [|b l IH]; intros a; [reflexivity|].
  change (last (b :: l) d = last (b :: l) d'). apply IH.
Qed.

Section Starts.

Variable ext : Externals.
Variable options : InvoiceOptions.

Lemma extends_of_grows s s' :
  grows ext options s s' -> exists cells, texts ext s' = texts ext s ++ cells.
Proof. intros (H & _). exact H. Qed.

Lemma setText_heights t o s :
  customer_height (setText ext options t o s) = customer_height s /\
  seller_height (setText ext options t o s) = seller_height s.
Proof. destruct (setText_frame ext options t o s) as (_ & ? & ? & _). auto. Qed.

Lemma fold_setText_heights (o : TextCall) : forall (vs : list value) s,
  customer_height (fold_left (fun s v => setText ext options v o s) vs s) =
    customer_height s /\
  seller_height (fold_left (fun s v => setText ext options v o s) vs s) =
    seller_height s.
Proof.
  induction vs as [|v vs IH]; intros s; simpl; [auto|].
  destruct (IH (setText ext options v o s)) as (-> & ->).
  apply setText_heights.
Qed.

Lemma details_line_heights s line :
  customer_height (details_line ext options s line) = customer_height s /\
  seller_height (details_line ext options s line) = seller_height s.
Proof.
  unfold details_line. cbn zeta.
  match goal with
  | |- context [fold_left _ ?vs ?s0] =>
      destruct (fold_setText_heights
                  {| fontWeight := None; colorCode := Some "secondary"%string;
                     fontSize := None; align := None; color := None;
                     marginTop := Some (num_Z 4);
                     maxWidth := Some (num_Z 250); skipDown := None |}
                  vs s0) as (-> & ->)
  end.
  apply setText_heights.
Qed.

Lemma fold_details_line_heights : forall (lines : list Line) s,
  customer_height (fold_left (details_line ext options) lines s) =
    customer_height s /\
  seller_height (fold_left (details_line ext options) lines s) =
    seller_height s.
Proof.
  induction lines as [|l lines IH]; intros s; simpl; [auto|].
  destruct (IH (details_line ext options s l)) as (-> & ->).
  apply details_line_heights.
Qed.

(** Rendering the seller's details keeps the customer's recorded height. *)
Lemma generateDetails_Seller_customer_height s :
  customer_height (generateDetails ext options Seller s) = customer_height s.
Proof.
  unfold generateDetails. cbn zeta. cbn [set_height_of].
  change (customer_height (set_seller_height ?v ?x)) with (customer_height x).
  destruct (fold_details_line_heights (invoice_lines options Seller)
              (setCursor X (textPosition (header (style options)))
                 (setCursor Y
                    (nadd (header_height (header (style options)))
                       (num_Z 18)) s))) as (-> & _).
  reflexivity.
Qed.

Lemma generateDetails_height type s :
  height_of type (generateDetails ext options type s) =
  cursor_y (generateDetails ext options type s).
Proof. destruct type; reflexivity. Qed.

(** The table section first draws at [max(customer.height, seller.height)]. *)
Lemma generateParts_first_draw s :
  option_map y_of (hd_error (drawn ext s (generateParts ext options s))) =
  Some (Math_max (customer_height s) (seller_height s)).
Proof.
  unfold generateParts. cbn zeta.
  set (startY := Math_max (customer_height s) (seller_height s)).
  set (s0 := setText ext options _ no_options (setCursor Y startY s)).
  destruct (setText_frame ext options (VString newline) no_options
              (setCursor Y startY s)) as (_ & _ & _ & Ht).
  fold s0 in Ht. rewrite texts_setCursor in Ht.
  erewrite hd_drawn; [| exact Ht |].
  - cbn [option_map y_of setCursor cursor_y set_cursor_y marginTop
           no_options default].
    rewrite nadd_0_r. reflexivity.
  - apply extends_of_grows.
    eapply grows_trans;
      [|apply grows_fold_left; intros; apply grows_total_line].
    eapply grows_trans; [|apply grows_set_cursor_y].
    eapply grows_trans;
      [|apply grows_fold_left; intros; apply grows_generateTableRow].
    apply grows_generateTableRow.
Qed.

Lemma generateLine_doc_y s :
  doc_y (getDocument ext (generateLine ext options s)) =
  doc_y (getDocument ext s).
Proof. reflexivity. Qed.

Lemma row_columns_doc_y fw cc length : forall columns index r,
  doc_y (getDocument ext
           (row_storage (row_columns ext options fw cc length index
                           columns r))) =
  last (reached_from ext options fw cc length index columns r)
    (doc_y (getDocument ext (row_storage r))).
Proof.
  induction columns as [|c columns IH]; intros index r.
  - reflexivity.
  - cbn [row_columns reached_from]. rewrite IH.
    destruct (reached_from ext options fw cc length (index + 1) columns _);
      [reflexivity|].
    cbn [last]. apply last_nonempty.
Qed.

Lemma generateTableRow_doc_y type columns s :
  doc_y (getDocument ext (generateTableRow ext options type columns s)) =
  last (cells_reached ext options type columns s)
    (doc_y (getDocument ext s)).
Proof.
  unfold generateTableRow. cbn zeta.
  assert (H : doc_y (getDocument ext
                       (generateTableRow_cells ext options type columns s)) =
              last (cells_reached ext options type columns s)
                (doc_y (getDocument ext s))).
  { unfold generateTableRow_cells, cells_reached. cbn zeta.
    change (getDocument ext (setCursor Y ?v ?x)) with (getDocument ext x).
    rewrite row_columns_doc_y. reflexivity. }
  destruct type; [rewrite generateLine_doc_y|]; exact H.
Qed.

(** The first cell of a row is drawn 17 units below the document's y. *)
Lemma generateTableRow_first_draw type c columns s :
  option_map y_of
    (hd_error (drawn ext s (generateTableRow ext options type (c :: columns) s))) =
  Some (nadd (doc_y (getDocument ext s)) (num_Z 17)).
Proof.
  unfold drawn. rewrite generateTableRow_texts.
  change (skipn _ _) with
    (drawn ext s (generateTableRow_cells ext options type (c :: columns) s)).
  unfold generateTableRow_cells. cbn zeta. cbn [row_columns].
  match goal with
  | |- context [row_column ext options ?fw ?cc ?len ?r0 0 c] =>
      destruct (row_column_spec ext options fw cc len r0 0 c) as (Ht & _);
      set (r1 := row_column ext options fw cc len r0 0 c) in *
  end.
  cbn [row_start row_storage] in Ht.
  erewrite hd_drawn; [| exact Ht |].
  - reflexivity.
  - apply extends_of_grows.
    eapply grows_trans; [apply grows_row_columns|apply grows_setCursor].
Qed.

End Starts.

(** C8. Each details section records the cursor's y at its end as its
    height, and the table section begins at the greater of the two recorded
    heights: the first thing it draws is drawn at
    [max(customer.height, seller.height)], which after the two details
    sections is the greater of the cursor's y at the end of each. *)
Theorem generateParts_starts_at_max_height :
  forall ext options (s : Storage),
    (forall type,
       height_of type (generateDetails ext options type s) =
       cursor_y (generateDetails ext options type s)) /\
    option_map y_of (hd_error (drawn ext s (generateParts ext options s))) =
      Some (Math_max (customer_height s) (seller_height s)) /\
    (let s1 := generateDetails ext options Customer s in
     let s2 := generateDetails ext options Seller s1 in
     option_map y_of (hd_error (drawn ext s2 (generateParts ext options s2))) =
       Some (Math_max (cursor_y s1) (cursor_y s2))).
Proof.
  intros ext options s. split; [|split].
  - intros type. apply generateDetails_height.
  - apply generateParts_first_draw.
  - cbn zeta. rewrite generateParts_first_draw.
    rewrite generateDetails_Seller_customer_height.
    reflexivity.
Qed.

(** C9. [generateTableRow] discards the cursor's y it is called with: the
    call returns the same storage whatever that y is, and draws its first cell
    17 units below the document's y. The document's y after a row is the one
    it reported after the row's last cell, so the row that follows starts 17
    units below the y reached by that last cell, whatever the greatest y
    reached in the row. *)
Theorem generateTableRow_starts_from_document :
  forall ext options (type : RowType) (columns : list Cell) (s : Storage),
    (forall y,
       generateTableRow ext options type columns (set_cursor_y y s) =
       generateTableRow ext options type columns s) /\
    (forall c rest,
       option_map y_of
         (hd_error
            (drawn ext s (generateTableRow ext options type (c :: rest) s))) =
       Some (nadd (doc_y (getDocument ext s)) (num_Z 17))) /\
    doc_y (getDocument ext (generateTableRow ext options type columns s)) =
      last (cells_reached ext options type columns s)
        (doc_y (getDocument ext s)) /\
    (forall type' c rest,
       let s1 := generateTableRow ext options type columns s in
       option_map y_of
         (hd_error
            (drawn ext s1 (generateTableRow ext options type' (c :: rest) s1))) =
       Some (nadd (last (cells_reached ext options type columns s)
                     (doc_y (getDocument ext s))) (num_Z 17))).
Proof.
  intros ext options type columns s. split; [|split; [|split]].
  - intros y. reflexivity.
  - intros c rest. apply generateTableRow_first_draw.
  - apply generateTableRow_doc_y.
  - intros type' c rest s1.
    rewrite generateTableRow_first_draw. unfold s1.
    rewrite generateTableRow_doc_y. reflexivity.
Qed.

(** After a row whose first cell takes two lines, the next row starts 17
    units below the y reached by the last cell, which is not 17 units below
    the cursor's y the first row ended with. *)
Example second_row_starts_from_last_cell :
  let s1 := generateTableRow sample_ext sample_options Row wrapping_row
              initial_storage in
  option_map y_of
    (hd_error
       (drawn sample_ext s1
          (generateTableRow sample_ext sample_options Row sample_row s1))) <>
  Some (nadd (cursor_y s1) (num_Z 17)).
Proof.
  cbn zeta. intros H. vm_compute in H. discriminate H.
Qed.

(** ** Price formatting *)

Lemma size_nat_bound (p : positive) : (N.pos p < pow2 (Pos.size_nat p))%N.
Proof.
  induction p as [p IH|p IH|]; cbn [Pos.size_nat pow2]; lia.
Qed.

Lemma digits_fuel_unfold (f : nat) (n : N) :
  digits_fuel (S f) n =
  if (n <? 10)%N then [digit n]
  else digits_fuel f (n / 10)%N ++ [digit (n mod 10)%N].
Proof. reflexivity. Qed.

(** Fuel beyond the number of bits of [n] changes nothing. *)
Lemma digits_fuel_enough : forall (f1 f2 : nat) (n : N),
  (n < pow2 f1)%N -> (n < pow2 f2)%N ->
  digits_fuel (S f1) n = digits_fuel (S f2) n.
Proof.
  induction f1 as [|f1 IH]; intros f2 n H1 H2;
    rewrite (digits_fuel_unfold _ n), (digits_fuel_unfold f2 n);
    destruct (N.ltb_spec n 10) as [Hlt|Hge]; try reflexivity.
  - cbn [pow2] in H1. lia.
  - destruct f2 as [|f2]; [cbn [pow2] in H2; lia|].
    cbn [pow2] in H1, H2.
    assert (Hdiv : (n / 10 <= n / 2)%N)
      by (apply N.div_le_compat_l; lia).
    assert (Hhalf1 : (n / 2 < pow2 f1)%N)
      by (apply N.Div0.div_lt_upper_bound; lia).
    assert (Hhalf2 : (n / 2 < pow2 f2)%N)
      by (apply N.Div0.div_lt_upper_bound; lia).
    rewrite (IH f2 (n / 10)%N) by lia. reflexivity.
Qed.

Lemma digits_unfold (n : N) :
  digits n =
  if (n <? 10)%N then [digit n] else digits (n / 10) ++ [digit (n mod 10)%N].
Proof.
  unfold digits. rewrite digits_fuel_unfold.
  destruct (N.ltb_spec n 10) as [Hlt|Hge]; [reflexivity|].
  f_equal.
  assert (Hn : (n < pow2 (N.size_nat n))%N).
  { destruct n as [|p]; [lia|]. apply size_nat_bound. }
  assert (Hq : (n / 10 < pow2 (N.size_nat (n / 10)))%N).
  { destruct (n / 10)%N as [|p]; [cbn; lia|]. apply size_nat_bound. }
  destruct (N.size_nat n) as [|k] eqn:Hk; [cbn [pow2] in Hn; lia|].
  apply digits_fuel_enough; [|exact Hq].
  cbn [pow2] in Hn.
  assert (Hdiv : (n / 10 <= n / 2)%N) by (apply N.div_le_compat_l; lia).
  assert (Hhalf : (n / 2 < pow2 k)%N)
    by (apply N.Div0.div_lt_upper_bound; lia).
  lia.
Qed.

Lemma digit_is_digit (d : N) : (d < 10)%N -> is_digit (digit d).
Proof. unfold is_digit, digit. lia. Qed.

Lemma digits_fuel_are_digits : forall (f : nat) (n : N),
  Forall is_digit (digits_fuel f n).
Proof.
  induction f as [|f IH]; intros n; cbn [digits_fuel]; [constructor|].
  destruct (N.ltb_spec n 10) as [Hlt|Hge].
  - constructor; [apply digit_is_digit; exact Hlt|constructor].
  - apply Forall_app. split; [apply IH|].
    constructor; [|constructor].
    apply digit_is_digit. apply N.mod_lt. lia.
Qed.

Lemma digits_are_digits (n : N) : digits n <> [] /\ Forall is_digit (digits n).
Proof.
  split; [|apply digits_fuel_are_digits].
  rewrite digits_unfold. destruct (n <? 10)%N; [discriminate|].
  intros H. apply app_eq_nil in H as [_ H]. discriminate H.
Qed.

Lemma split_before_last_two {A : Type} (a : list A) (x y : A) :
  let m := a ++ [x; y] in
  firstn (List.length m - 2) m = a /\ skipn (List.length m - 2) m = [x; y].
Proof.
  cbn zeta. rewrite length_app. cbn [List.length].
  replace (List.length a + 2 - 2)%nat with (List.length a) by lia.
  rewrite firstn_app, skipn_app, firstn_all, skipn_all, Nat.sub_diag.
  split; [apply app_nil_r|reflexivity].
Qed.

(** [fixed_notation n] is the digits of [n / 100], a point, and the two
    digits of [n mod 100]. *)
Lemma fixed_notation_shape (n : N) :
  fixed_notation n =
  digits (n / 100) ++ str "." ++
  [digit ((n / 10) mod 10)%N; digit (n mod 10)%N].
Proof.
  unfold fixed_notation.
  destruct (N.ltb_spec n 10) as [H10|H10].
  - rewrite (digits_unfold n).
    replace (n <? 10)%N with true by (symmetry; apply N.ltb_lt; exact H10).
    rewrite !N.div_small, !N.mod_small by lia.
    reflexivity.
  - destruct (N.ltb_spec n 100) as [H100|H100].
    + rewrite (digits_unfold n).
      replace (n <? 10)%N with false by (symmetry; apply N.ltb_ge; exact H10).
      assert (Hq : (n / 10 < 10)%N)
        by (apply N.Div0.div_lt_upper_bound; lia).
      rewrite (digits_unfold (n / 10)).
      replace (n / 10 <? 10)%N with true by (symmetry; apply N.ltb_lt; exact Hq).
      rewrite (N.div_small n 100), (N.mod_small (n / 10) 10) by lia.
      reflexivity.
    + assert (Hq : (10 <= n / 10)%N)
        by (apply N.div_le_lower_bound; lia).
      assert (Hd : digits n =
                   digits (n / 100) ++
                   [digit ((n / 10) mod 10)%N; digit (n mod 10)%N]).
      { rewrite (digits_unfold n).
        replace (n <? 10)%N with false by (symmetry; apply N.ltb_ge; exact H10).
        rewrite (digits_unfold (n / 10)).
        replace (n / 10 <? 10)%N with false
          by (symmetry; apply N.ltb_ge; exact Hq).
        rewrite N.Div0.div_div. change (10 * 10)%N with 100%N.
        rewrite <- app_assoc. reflexivity. }
      rewrite Hd.
      destruct (digits_are_digits (n / 100)) as [Hne _].
      destruct (digits (n / 100)) as [|c cs] eqn:E; [congruence|].
      replace (List.length ((c :: cs) ++ [_; _]) <=? 2)%nat with false
        by (symmetry; apply Nat.leb_gt; rewrite length_app; simpl; lia).
      cbv zeta.
      destruct (split_before_last_two (c :: cs)
                  (digit ((n / 10) mod 10)%N) (digit (n mod 10)%N))
        as [-> ->].
      reflexivity.
Qed.

Lemma hundredths_nearest (a : Z) (b : positive) :
  0 <= a ->
  let n := Z.of_N (hundredths a b) in
  2 * Z.pos b * n <= 200 * a + Z.pos b < 2 * Z.pos b * (n + 1).
Proof.
  intros Ha. unfold hundredths. cbn zeta.
  assert (Hq : 0 <= (200 * a + Z.pos b) / (2 * Z.pos b))
    by (apply Z.div_pos; lia).
  rewrite Z2N.id by exact Hq.
  pose proof (Z.mul_div_le (200 * a + Z.pos b) (2 * Z.pos b)) as Hle.
  pose proof (Z.mul_succ_div_gt (200 * a + Z.pos b) (2 * Z.pos b)) as Hgt.
  unfold Z.succ in Hgt. lia.
Qed.

Lemma prettyPrice_suffix ext options (v : value) :
  prettyPrice ext options v =
  match v with
  | VNumber n => toFixed2 (shortest_repr ext) n
  | VString t => t
  end ++ currency_suffix options.
Proof.
  unfold prettyPrice, currency_suffix.
  destruct (currency (invoice options)) as [[|c cs]|];
    rewrite ?app_nil_r; reflexivity.
Qed.

(** C6, as the code has it. For a finite number [q] below [10^21] in
    absolute value, [prettyPrice] gives the sign, the decimal digits of the
    integer part, a point and exactly two decimal digits, the hundredths being
    the nearest to [|q|] (the upper ones of two), followed by a space and the
    currency when one is set; for a string it gives the string followed by
    the same suffix. So [prettyPrice(51.6)] with currency EUR is "51.60 EUR"
    and [prettyPrice("51.6")] with no currency is "51.6". *)
Theorem prettyPrice_format :
  forall ext options,
    (forall q : Qc,
       below_1e21 q = true ->
       let n := hundredths (Qc_abs_num q) (Qden q) in
       prettyPrice ext options (VNumber (Num q)) =
         (if is_negative q then str "-" else []) ++
         digits (n / 100) ++ str "." ++
         [digit ((n / 10) mod 10)%N; digit (n mod 10)%N] ++
         currency_suffix options /\
       two_decimal_places
         ((if is_negative q then str "-" else []) ++
          digits (n / 100) ++ str "." ++
          [digit ((n / 10) mod 10)%N; digit (n mod 10)%N]) /\
       digits (n / 100) <> [] /\
       Forall is_digit (digits (n / 100)) /\
       is_digit (digit ((n / 10) mod 10)%N) /\
       is_digit (digit (n mod 10)%N) /\
       2 * Z.pos (Qden q) * Z.of_N n <= 200 * Qc_abs_num q + Z.pos (Qden q)
         < 2 * Z.pos (Qden q) * (Z.of_N n + 1)) /\
    (forall t : jsstring,
       prettyPrice ext options (VString t) = t ++ currency_suffix options) /\
    (currency (invoice options) = Some (str "EUR") ->
     prettyPrice ext options (VNumber (num_frac 516 10)) = str "51.60 EUR" /\
     prettyPrice ext options (VNumber double_51_6) = str "51.60 EUR") /\
    (currency (invoice options) = None ->
     prettyPrice ext options (VString (str "51.6")) = str "51.6").
Proof.
  intros ext options. split; [|split; [|split]].
  - intros q Hq n.
    rewrite prettyPrice_suffix. cbn [toFixed2]. rewrite Hq.
    fold n. rewrite fixed_notation_shape.
    destruct (digits_are_digits (n / 100)) as [Hne Hall].
    refine (conj _ (conj _ (conj Hne (conj Hall (conj _ (conj _ _)))))).
    + rewrite <- !app_assoc. reflexivity.
    + exists ((if is_negative q then str "-" else []) ++ digits (n / 100)),
        ((n / 10) mod 10)%N, (n mod 10)%N.
      split; [apply N.mod_lt; lia|]. split; [apply N.mod_lt; lia|].
      rewrite <- app_assoc. reflexivity.
    + apply digit_is_digit, N.mod_lt; lia.
    + apply digit_is_digit, N.mod_lt; lia.
    + apply (hundredths_nearest (Qc_abs_num q) (Qden q)).
      unfold Qc_abs_num. apply Z.abs_nonneg.
  - intros t. apply prettyPrice_suffix.
  - intros Hc. rewrite !prettyPrice_suffix. unfold currency_suffix.
    rewrite Hc. split; reflexivity.
  - intros Hc. rewrite prettyPrice_suffix. unfold currency_suffix.
    rewrite Hc. reflexivity.
Qed.

(** The claim C6 fails on [NaN], a value of type number: with no currency
    set, [prettyPrice(NaN)] is "NaN", which has no decimal places. *)
Lemma prettyPrice_NaN_has_no_decimals :
  prettyPrice sample_ext sample_options_no_currency (VNumber NaN) = str "NaN" /\
  ~ two_decimal_places
      (prettyPrice sample_ext sample_options_no_currency (VNumber NaN)).
Proof.
  split; [reflexivity|].
  intros (whole & d1 & d2 & _ & _ & H).
  change (prettyPrice sample_ext sample_options_no_currency (VNumber NaN))
    with (str "NaN") in H.
  destruct whole as [|a [|b [|c whole]]]; try discriminate H.
  injection H as _ _ _ H. destruct whole; discriminate H.
Qed.

Lemma prettyPrice_format_witness :
  (below_1e21 (Q2Qc (-86 # 10)) = true /\
   currency (invoice sample_options) = Some (str "EUR") /\
   currency (invoice sample_options_no_currency) = None) /\
  prettyPrice sample_ext sample_options (VNumber (Num (Q2Qc (-86 # 10)))) =
    str "-8.60 EUR" /\
  prettyPrice sample_ext sample_options (VNumber (num_frac 516 10)) =
    str "51.60 EUR" /\
  prettyPrice sample_ext sample_options_no_currency (VString (str "51.6")) =
    str "51.6".
Proof.
  assert (H1 : below_1e21 (Q2Qc (-86 # 10)) = true) by reflexivity.
  assert (H2 : currency (invoice sample_options) = Some (str "EUR"))
    by reflexivity.
  assert (H3 : currency (invoice sample_options_no_currency) = None)
    by reflexivity.
  split; [repeat split; assumption|].
  split; [|split].
  - exact (proj1 (proj1 (prettyPrice_format sample_ext sample_options)
                    (Q2Qc (-86 # 10)) H1)).
  - exact (proj1 (proj1 (proj2 (proj2
             (prettyPrice_format sample_ext sample_options))) H2)).
  - exact (proj2 (proj2 (proj2
             (prettyPrice_format sample_ext sample_options_no_currency))) H3).
Defined.

(** ** Examples *)

(** A CJK text is outside the fallback font's range too: the configured font
    of the weight is kept. *)
Example getFontOrFallback_cjk :
  fst (getFontOrFallback sample_ext sample_options (Some "normal"%string)
         (VString cjk_text) initial_storage) = "Helvetica"%string.
Proof. reflexivity. Qed.

(** A legal line that sets no weight is drawn with the normal font. *)
Example legal_line_without_weight :
  In (OpFont "Helvetica")
    (doc_ops (getDocument sample_ext
                (legal_line sample_ext sample_options initial_storage
                   {| legal_value := str "Lorem ipsum";
                      legal_weight := None; legal_color := None |}))).
Proof. vm_compute. auto 10. Qed.

(** The whole sample invoice registers the fallback font once. *)
Example sample_invoice_registrations :
  registrations sample_ext
    (generateBuffer sample_ext sample_options initial_storage) =
  [("Noto Sans"%string, "../res/fonts/NotoSans-Regular.ttf"%string)].
Proof. vm_compute. reflexivity. Qed.

(** [Number::toString] of the sample collaborators on short decimals *)
Example sample_shortest_repr_51_6 :
  sample_shortest_repr (Q2Qc (516 # 10)) = str "51.6" /\
  sample_shortest_repr (Q2Qc (-5 # 100)) = str "-0.05".
Proof. split; vm_compute; reflexivity. Qed.

(** * Further properties *)

(** ** What a run draws, section after section *)

Lemma skipn_length_app {A : Type} (a b : list A) :
  skipn (List.length a) (a ++ b) = b.
Proof. rewrite skipn_app, skipn_all, Nat.sub_diag. reflexivity. Qed.

Lemma getFontOrFallback_loaded ext options type v s :
  fallback_loaded (snd (getFontOrFallback ext options type v s)) =
  fallback_loaded s || selects_fallback ext options v.
Proof.
  unfold getFontOrFallback, selects_fallback; cbn zeta.
  destruct (fallback_enabled _); simpl; [|symmetry; apply orb_false_r].
  destruct (RegExp_test (font_range _) _); simpl;
    [|symmetry; apply orb_false_r].
  destruct (RegExp_test (fallback_range _) _); simpl;
    [symmetry; apply orb_false_r|].
  destruct (fallback_loaded s) eqn:L; simpl; [exact L|reflexivity].
Qed.

Lemma setText_loaded ext options t o s :
  fallback_loaded (setText ext options t o s) =
  fallback_loaded s || selects_fallback ext options t.
Proof.
  unfold setText.
  destruct (setText_readback_frame ext o (setText_draw ext options t o s))
    as (_ & _ & _ & -> & _).
  unfold setText_draw.
  match goal with
  | |- context [getFontOrFallback ext options ?w t ?s0] =>
      pose proof (getFontOrFallback_loaded ext options w t s0) as L;
      destruct (getFontOrFallback ext options w t s0) as [name s1]
  end.
  cbn [snd] in L. cbn zeta.
  change (fallback_loaded s1 = fallback_loaded s || selects_fallback ext options t).
  rewrite L. f_equal.
  destruct (negb _); [destruct (_ =? _)%string|]; reflexivity.
Qed.

Section Draws.

Variable ext : Externals.
Variable options : InvoiceOptions.

Lemma draws_quiet s s' :
  texts ext s' = texts ext s ->
  fallback_loaded s' = fallback_loaded s ->
  draws ext options [] s s'.
Proof.
  intros T L. split.
  - unfold contents. rewrite T. symmetry. apply app_nil_r.
  - rewrite L. symmetry. apply orb_false_r.
Qed.

Lemma draws_app vs1 vs2 s1 s2 s3 :
  draws ext options vs1 s1 s2 -> draws ext options vs2 s2 s3 ->
  draws ext options (vs1 ++ vs2) s1 s3.
Proof.
  intros (C1 & L1) (C2 & L2). split.
  - rewrite C2, C1, map_app, app_assoc. reflexivity.
  - rewrite L2, L1, existsb_app, orb_assoc. reflexivity.
Qed.

Lemma draws_before vs s1 s2 s3 :
  draws ext options [] s1 s2 -> draws ext options vs s2 s3 ->
  draws ext options vs s1 s3.
Proof. intros H1 H2. exact (draws_app [] vs s1 s2 s3 H1 H2). Qed.

Lemma draws_after vs s1 s2 s3 :
  draws ext options vs s1 s2 -> draws ext options [] s2 s3 ->
  draws ext options vs s1 s3.
Proof.
  intros H1 H2. rewrite <- (app_nil_r vs). exact (draws_app vs [] s1 s2 s3 H1 H2).
Qed.

Lemma draws_setCursor axis v s : draws ext options [] s (setCursor axis v s).
Proof. apply draws_quiet; destruct axis; reflexivity. Qed.

Lemma draws_set_cursor_y v s : draws ext options [] s (set_cursor_y v s).
Proof. apply draws_quiet; reflexivity. Qed.

Lemma draws_call o s :
  texts_of [o] = [] -> draws ext options [] s (call ext o s).
Proof.
  intros H. apply draws_quiet; [|reflexivity].
  rewrite texts_call, H. apply app_nil_r.
Qed.

Lemma draws_setText t o s :
  draws ext options [t] s (setText ext options t o s).
Proof.
  split.
  - unfold contents.
    destruct (setText_frame ext options t o s) as (_ & _ & _ & ->).
    rewrite map_app. reflexivity.
  - rewrite setText_loaded. cbn [existsb]. rewrite orb_false_r. reflexivity.
Qed.

Lemma draws_fold_left {A : Type} (f : Storage -> A -> Storage)
    (g : A -> list value) :
  (forall s x, draws ext options (g x) s (f s x)) ->
  forall l s, draws ext options (flat_map g l) s (fold_left f l s).
Proof.
  intros Hf. induction l as [|x l IH]; intros s; cbn [flat_map fold_left].
  - apply draws_quiet; reflexivity.
  - eapply draws_app; [apply Hf|apply IH].
Qed.

Lemma flat_map_singleton {A B : Type} (f : A -> B) (l : list A) :
  flat_map (fun x => [f x]) l = map f l.
Proof. induction l as [|x l IH]; simpl; [reflexivity|]. rewrite IH. reflexivity. Qed.

Lemma draws_values (o : TextCall) (vs : list value) s :
  draws ext options vs s
    (fold_left (fun s v => setText ext options v o s) vs s).
Proof.
  rewrite <- (map_id vs) at 1. rewrite <- flat_map_singleton.
  apply draws_fold_left. intros. apply draws_setText.
Qed.

Lemma draws_generateHeader s :
  draws ext options (header_values options) s (generateHeader ext options s).
Proof.
  unfold generateHeader, header_values. cbn zeta.
  eapply draws_before with (vs := _ :: _).
  2:{ eapply (draws_app [_] _).
      - apply draws_setText.
      - apply draws_fold_left. intros s0 line. unfold line_values.
        eapply (draws_app [_] _); [apply draws_setText|apply draws_values]. }
  eapply draws_after; [|apply draws_setCursor].
  eapply draws_after; [|apply draws_setCursor].
  apply draws_quiet.
  - destruct (header_image _) as [image|]; [destruct (truthy _)|];
      unfold texts, call_image, call; simpl;
      rewrite ?texts_of_app; simpl; rewrite ?app_nil_r; reflexivity.
  - destruct (header_image _) as [image|]; [destruct (truthy _)|]; reflexivity.
Qed.

Lemma draws_details_line s line :
  draws ext options (line_values line) s (details_line ext options s line).
Proof.
  unfold details_line, line_values. cbn zeta.
  eapply (draws_app [_] _); [apply draws_setText|apply draws_values].
Qed.

Lemma draws_generateDetails type s :
  draws ext options (details_values options type) s
    (generateDetails ext options type s).
Proof.
  destruct type; unfold generateDetails, details_values; cbn zeta;
    (eapply draws_after; [|apply draws_quiet; reflexivity]);
    (eapply draws_before; [|apply draws_fold_left; apply draws_details_line]);
    (eapply draws_after; apply draws_setCursor).
Qed.

Lemma draws_generateLine s : draws ext options [] s (generateLine ext options s).
Proof.
  apply draws_quiet; [apply generateLine_texts|reflexivity].
Qed.

Lemma draws_row_column fw cc length r index column :
  draws ext options (row_values ext options [column]) (row_storage r)
    (row_storage (row_column ext options fw cc length r index column)).
Proof.
  unfold row_column, row_values. cbn [map].
  destruct (index <? length - 2); [|destruct (index =? length - 2)];
    cbn -[setText];
    (eapply draws_before; [apply (draws_setCursor X)|apply draws_setText]).
Qed.

Lemma draws_row_columns fw cc length : forall columns index r,
  draws ext options (row_values ext options columns) (row_storage r)
    (row_storage (row_columns ext options fw cc length index columns r)).
Proof.
  induction columns as [|c columns IH]; intros index r; cbn [row_columns].
  - apply draws_quiet; reflexivity.
  - eapply (draws_app [_] _ _ _ _ (draws_row_column fw cc length r index c)).
    apply IH.
Qed.

Lemma draws_generateTableRow type columns s :
  draws ext options (row_values ext options columns) s
    (generateTableRow ext options type columns s).
Proof.
  unfold generateTableRow. cbn zeta.
  eapply draws_after.
  2:{ destruct type; [apply draws_generateLine|apply draws_quiet; reflexivity]. }
  unfold generateTableRow_cells. cbn zeta.
  eapply draws_after; [|apply draws_setCursor].
  eapply draws_before; [|apply draws_row_columns].
  cbn [row_start row_storage].
  apply draws_quiet; reflexivity.
Qed.

Lemma draws_total_line s t :
  draws ext options (total_values ext options t) s (total_line ext options s t).
Proof.
  unfold total_line, total_values. cbn zeta.
  eapply (draws_app [_] [_]).
  - eapply draws_before; [apply draws_setCursor|apply draws_setText].
  - eapply draws_before; [apply draws_setCursor|apply draws_setText].
Qed.

Lemma draws_generateParts s :
  draws ext options (parts_values ext options) s (generateParts ext options s).
Proof.
  unfold generateParts, parts_values. cbn zeta.
  eapply (draws_app [_] _).
  { eapply draws_before; [apply draws_setCursor|apply draws_setText]. }
  eapply draws_app; [apply draws_generateTableRow|].
  eapply draws_app.
  { apply draws_fold_left with
      (f := fun s part => generateTableRow ext options Row part s).
    intros. apply draws_generateTableRow. }
  eapply draws_before; [apply draws_set_cursor_y|].
  apply draws_fold_left. apply draws_total_line.
Qed.

Lemma draws_legal_line s l :
  draws ext options [VString (legal_value l)] s (legal_line ext options s l).
Proof.
  unfold legal_line. cbn zeta.
  eapply draws_before; [apply draws_setCursor|apply draws_setText].
Qed.

Lemma draws_generateLegal s :
  draws ext options (legal_values options) s (generateLegal ext options s).
Proof.
  unfold generateLegal, legal_values. cbn zeta.
  eapply draws_before; [apply draws_set_cursor_y|].
  rewrite <- flat_map_singleton.
  apply draws_fold_left. apply draws_legal_line.
Qed.

Lemma draws_loadCustomFonts s :
  draws ext options [] s (loadCustomFonts ext options s).
Proof.
  unfold loadCustomFonts. cbn zeta.
  destruct (truthy_opt (font_path (normal _)));
    destruct (truthy_opt (font_path (bold _)));
    repeat (eapply draws_after; [|apply draws_call; reflexivity]);
    apply draws_quiet; reflexivity.
Qed.

Lemma draws_generateBuffer s :
  draws ext options (document_values ext options) s
    (generateBuffer ext options s).
Proof.
  unfold generateBuffer, document_values. cbn zeta.
  eapply draws_before.
  { eapply draws_after; [|apply draws_loadCustomFonts].
    apply draws_quiet with (s' := set_document (getDocument ext s) s).
    - unfold texts, getDocument; simpl. reflexivity.
    - reflexivity. }
  eapply draws_app; [apply draws_generateHeader|].
  eapply draws_app; [apply draws_generateDetails|].
  eapply draws_app; [apply draws_generateDetails|].
  eapply draws_app; [apply draws_generateParts|apply draws_generateLegal].
Qed.

End Draws.

(** X1. A whole run draws the title and the header lines, the customer's
    lines, the seller's lines, the newline that opens the table, the header
    cells, the cells of each item row, the label and the value of each total
    and the legal lines, each value once and in this order, each as
    [valueOrTransliterate] leaves it; the custom fonts add no text. *)
Theorem generateBuffer_draws_every_value_in_order :
  forall ext options (s : Storage),
    contents ext (generateBuffer ext options s) =
      contents ext s ++
      map (valueOrTransliterate ext options) (document_values ext options) /\
    contents ext (generateBuffer ext options initial_storage) =
      map (valueOrTransliterate ext options) (document_values ext options).
Proof.
  intros ext options s. split.
  - apply (draws_generateBuffer ext options s).
  - apply (draws_generateBuffer ext options initial_storage).
Qed.

Lemma registrations_loadCustomFonts ext options :
  registrations ext
    (loadCustomFonts ext options
       (set_document (new_document ext) initial_storage)) =
  custom_registrations options.
Proof.
  unfold loadCustomFonts, custom_registrations. cbn zeta.
  destruct (truthy_opt (font_path (normal _)));
    destruct (truthy_opt (font_path (bold _))); reflexivity.
Qed.

(** X2. In a run from the constructor's storage the fallback font ends up
    registered exactly when one of the drawn values selects it, and the
    [registerFont] calls of the run are those of the custom fonts that have a
    path, normal before bold, followed by the one of the fallback font in
    that case. *)
Theorem generateBuffer_registrations :
  forall ext options,
    let final := generateBuffer ext options initial_storage in
    let needed :=
      existsb (selects_fallback ext options) (document_values ext options) in
    fallback_loaded final = needed /\
    registrations ext final =
      custom_registrations options ++
      (if needed then [fallback_registration options] else []).
Proof.
  intros ext options final needed.
  assert (L : fallback_loaded final = needed)
    by apply (draws_generateBuffer ext options initial_storage).
  split; [exact L|].
  destruct (grows_generateBuffer ext options initial_storage) as (_ & _ & R).
  change (getDocument ext initial_storage) with (new_document ext) in R.
  fold final in R. rewrite R, registrations_loadCustomFonts, L.
  replace (fallback_loaded (loadCustomFonts ext options
             (set_document (new_document ext) initial_storage)))
    with false; [reflexivity|].
  symmetry. apply (draws_loadCustomFonts ext options).
Qed.

Lemma drawn_contents ext s s' vs options :
  draws ext options vs s s' ->
  (exists cells, texts ext s' = texts ext s ++ cells) ->
  map text_of (drawn ext s s') = map (valueOrTransliterate ext options) vs.
Proof.
  intros (C & _) (cells & T). unfold drawn. rewrite T, skipn_length_app.
  unfold contents in C. rewrite T, map_app in C.
  apply app_inv_head in C. exact C.
Qed.

(** X3. A row of any number of columns draws one text per cell, in the order
    of the cells: the cell's value as a string, or [prettyPrice] of it when
    the cell's [price] is [true], as [valueOrTransliterate] leaves it. *)
Theorem generateTableRow_draws_each_cell_once :
  forall ext options (type : RowType) (columns : list Cell) (s : Storage),
    map text_of (drawn ext s (generateTableRow ext options type columns s)) =
      map (fun c =>
             valueOrTransliterate ext options
               (VString
                  (match cell_price c with
                   | Some true => prettyPrice ext options (cell_value c)
                   | _ => ToString ext (cell_value c)
                   end))) columns /\
    List.length (drawn ext s (generateTableRow ext options type columns s)) =
      List.length columns.
Proof.
  intros ext options type columns s.
  assert (H : map text_of
                (drawn ext s (generateTableRow ext options type columns s)) =
              map (valueOrTransliterate ext options)
                (row_values ext options columns)).
  { apply drawn_contents.
    - apply draws_generateTableRow.
    - apply (grows_generateTableRow ext options type columns s). }
  split.
  - rewrite H. unfold row_values. rewrite map_map. reflexivity.
  - rewrite <- (length_map text_of), H. unfold row_values.
    rewrite !length_map. reflexivity.
Qed.

(** X4. The text drawn in the fallback font is never transliterated: when
    the resolver selects the fallback font for a value, the value is drawn as
    it is; and when the drawn text differs from the value, the resolver
    returns the configured font of the weight and leaves the storage as it
    was. *)
Theorem fallback_text_is_not_transliterated :
  forall ext options (type : option string) (v : value) (s : Storage),
    (selects_fallback ext options v = true ->
     valueOrTransliterate ext options v = ToString ext v /\
     fst (getFontOrFallback ext options type v s) =
       fallback_name (fallback (fonts (style options)))) /\
    (valueOrTransliterate ext options v <> ToString ext v ->
     fst (getFontOrFallback ext options type v s) =
       fonts_name options (coerce_type type) /\
     snd (getFontOrFallback ext options type v s) = s).
Proof.
  intros ext options type v s.
  assert (Hsel : selects_fallback ext options v = true ->
                 valueOrTransliterate ext options v = ToString ext v).
  { unfold selects_fallback, valueOrTransliterate. cbn zeta.
    intros H. apply andb_true_iff in H as [H Hf].
    apply andb_true_iff in H as [He _].
    rewrite He, Hf. reflexivity. }
  split.
  - intros H. split; [exact (Hsel H)|].
    rewrite getFontOrFallback_name. cbn zeta.
    unfold selects_fallback in H. cbn zeta in H. rewrite H. reflexivity.
  - intros Hne.
    destruct (selects_fallback ext options v) eqn:E;
      [exfalso; exact (Hne (Hsel eq_refl))|].
    split; [|apply getFontOrFallback_not_selected; exact E].
    rewrite getFontOrFallback_name. cbn zeta.
    unfold selects_fallback in E. cbn zeta in E. rewrite E. reflexivity.
Qed.

Lemma fallback_text_is_not_transliterated_witness :
  (selects_fallback sample_ext sample_options (VString cyrillic_text) = true /\
   valueOrTransliterate sample_ext sample_options (VString cjk_text) <>
     ToString sample_ext (VString cjk_text)) /\
  valueOrTransliterate sample_ext sample_options (VString cyrillic_text) =
    cyrillic_text /\
  fst (getFontOrFallback sample_ext sample_options (Some "bold"%string)
         (VString cjk_text) initial_storage) = "Helvetica-Bold"%string.
Proof.
  assert (H1 : selects_fallback sample_ext sample_options
                 (VString cyrillic_text) = true) by reflexivity.
  assert (H2 : valueOrTransliterate sample_ext sample_options
                 (VString cjk_text) <> ToString sample_ext (VString cjk_text))
    by (intros H; discriminate H).
  split; [split; assumption|]. split.
  - exact (proj1 (proj1 (fallback_text_is_not_transliterated sample_ext
                           sample_options None (VString cyrillic_text)
                           initial_storage) H1)).
  - exact (proj1 (proj2 (fallback_text_is_not_transliterated sample_ext
                           sample_options (Some "bold"%string)
                           (VString cjk_text) initial_storage) H2)).
Defined.

Lemma ngt_Num_0_false (a : Qc) : (a <= 0)%Qc -> ngt (Num a) (num_Z 0) = false.
Proof.
  intros H. destruct (ngt (Num a) (num_Z 0)) eqn:E; [|reflexivity].
  apply ngt_Num_0 in E. exfalso. exact (Qcle_not_lt _ _ H E).
Qed.

(** X5. A held draw after which the document's y is not below the y the
    text was drawn at (the same y, or a smaller one after a page break)
    leaves the cursor 11.5 above the y the document reports. *)
Theorem setText_skipDown_not_below :
  forall ext options (t : value) (o : TextCall) (s : Storage) (y0 yNew : Qc),
    skipDown o = Some true ->
    nadd (cursor_y s) (default (num_Z 0) (marginTop o)) = Num y0 ->
    doc_y (getDocument ext (setText ext options t o s)) = Num yNew ->
    (yNew <= y0)%Qc ->
    cursor_y (setText ext options t o s) = Num (yNew - Q2Qc (23 # 2))%Qc.
Proof.
  intros ext options t o s y0 yNew Hskip Hy0 HyNew Hle.
  rewrite setText_cursor_y, Hy0, HyNew.
  unfold held_or_advanced. rewrite Hskip.
  change (nsub (Num yNew) (Num y0)) with (Num (yNew - y0)%Qc).
  rewrite ngt_Num_0_false; [reflexivity|].
  apply Qcle_minus_iff in Hle. apply Qcopp_le_compat in Hle.
  replace (- (y0 + - yNew))%Qc with (yNew - y0)%Qc in Hle by ring.
  replace (- 0)%Qc with 0%Qc in Hle by ring. exact Hle.
Qed.

Lemma setText_skipDown_not_below_witness :
  (skipDown held_call = Some true /\
   nadd (cursor_y (set_cursor_y (num_Z 810) initial_storage))
     (default (num_Z 0) (marginTop held_call)) = Num (Q2Qc 810) /\
   doc_y (getDocument paging_ext
            (setText paging_ext sample_options (VString (str "Quantity"))
               held_call (set_cursor_y (num_Z 810) initial_storage))) =
     Num (Q2Qc (2089 # 25)) /\
   (Q2Qc (2089 # 25) <= Q2Qc 810)%Qc) /\
  cursor_y (setText paging_ext sample_options (VString (str "Quantity"))
              held_call (set_cursor_y (num_Z 810) initial_storage)) =
  Num (Q2Qc (2089 # 25) - Q2Qc (23 # 2))%Qc.
Proof.
  assert (H1 : skipDown held_call = Some true) by reflexivity.
  assert (H2 : nadd (cursor_y (set_cursor_y (num_Z 810) initial_storage))
                 (default (num_Z 0) (marginTop held_call)) = Num (Q2Qc 810))
    by (vm_compute; f_equal; apply Qc_is_canon; reflexivity).
  assert (H3 : doc_y (getDocument paging_ext
                 (setText paging_ext sample_options (VString (str "Quantity"))
                    held_call (set_cursor_y (num_Z 810) initial_storage))) =
               Num (Q2Qc (2089 # 25)))
    by (vm_compute; f_equal; apply Qc_is_canon; reflexivity).
  assert (H4 : (Q2Qc (2089 # 25) <= Q2Qc 810)%Qc) by (intros H; discriminate H).
  split; [repeat split; assumption|].
  exact (setText_skipDown_not_below paging_ext sample_options
           (VString (str "Quantity")) held_call
           (set_cursor_y (num_Z 810) initial_storage)
           (Q2Qc 810) (Q2Qc (2089 # 25)) H1 H2 H3 H4).
Defined.

(** X6. [setText] never changes the cursor's x nor the recorded heights, and
    a draw that is not held ([skipDown] absent or not [true]) leaves the
    cursor's y at the y the document reports after the draw. *)
Theorem setText_advances_cursor :
  forall ext options (t : value) (o : TextCall) (s : Storage),
    cursor_x (setText ext options t o s) = cursor_x s /\
    customer_height (setText ext options t o s) = customer_height s /\
    seller_height (setText ext options t o s) = seller_height s /\
    (skipDown o <> Some true ->
     cursor_y (setText ext options t o s) =
     doc_y (getDocument ext (setText ext options t o s))).
Proof.
  intros ext options t o s.
  destruct (setText_frame ext options t o s) as (Hx & Hc & Hs & _).
  repeat split; try assumption.
  intros Hskip. rewrite setText_cursor_y. unfold held_or_advanced.
  destruct (skipDown o) as [[|]|]; [congruence|reflexivity|reflexivity].
Qed.

Lemma setText_advances_cursor_witness :
  skipDown advancing_call <> Some true /\
  cursor_y (setText sample_ext sample_options (VString (str "John Doe"))
              advancing_call (set_cursor_y (num_Z 168) initial_storage)) =
  doc_y (getDocument sample_ext
           (setText sample_ext sample_options (VString (str "John Doe"))
              advancing_call (set_cursor_y (num_Z 168) initial_storage))).
Proof.
  assert (H : skipDown advancing_call <> Some true) by discriminate.
  split; [exact H|].
  exact (proj2 (proj2 (proj2 (setText_advances_cursor sample_ext
                                sample_options (VString (str "John Doe"))
                                advancing_call
                                (set_cursor_y (num_Z 168) initial_storage))))
           H).
Defined.

(** ** Rows of fewer than two columns *)

(** X7. A row of one column draws its cell at the total position with the
    total width; a row of no column draws nothing and leaves the cursor 17
    below the document's y, and a header row [regularSize + 2] further down
    for its separator. *)
Theorem generateTableRow_short_rows :
  forall ext options (type : RowType) (c : Cell) (s : Storage),
    let tbl := table (style options) in
    map x_and_width (drawn ext s (generateTableRow ext options type [c] s)) =
      [(position (total tbl), Some (column_maxWidth (total tbl)))] /\
    drawn ext s (generateTableRow ext options type [] s) = [] /\
    cursor_y (generateTableRow ext options Row [] s) =
      nadd (doc_y (getDocument ext s)) (num_Z 17) /\
    cursor_y (generateTableRow ext options HeaderRow [] s) =
      nadd (nadd (doc_y (getDocument ext s)) (num_Z 17))
        (nadd (regularSize (text (style options))) (num_Z 2)).
Proof.
  intros ext options type c s tbl. split; [|split; [|split; reflexivity]].
  - unfold drawn. rewrite generateTableRow_texts.
    unfold generateTableRow_cells. cbn zeta. cbn [row_columns List.length].
    match goal with
    | |- context [row_column ext options ?fw ?cc ?len ?r0 0 c] =>
        destruct (row_column_spec ext options fw cc len r0 0 c) as (Ht & _)
    end.
    rewrite texts_setCursor, Ht. cbn [row_start row_storage].
    change (texts ext (set_cursor_y ?a (set_cursor_y ?b s))) with (texts ext s).
    rewrite skipn_length_app. reflexivity.
  - unfold drawn. rewrite generateTableRow_texts.
    change (texts ext (generateTableRow_cells ext options type [] s))
      with (texts ext s).
    apply skipn_all.
Qed.

(** ** Cells on one line *)

Section RowLines.

Variable ext : Externals.
Variable options : InvoiceOptions.

Lemma row_column_cursor_y fw cc length r index column :
  let r' := row_column ext options fw cc length r index column in
  let y0 := cursor_y (row_storage r) in
  let yNew := doc_y (getDocument ext (row_storage r')) in
  cursor_y (row_storage r') =
  if ngt (nsub yNew y0) (num_Z 0)
  then nsub yNew (nsub yNew y0)
  else nsub yNew single_line_height.
Proof.
  unfold row_column.
  destruct (index <? length - 2); [|destruct (index =? length - 2)];
    cbn -[setText nadd nsub ngt];
    rewrite setText_cursor_y; unfold held_or_advanced;
    cbn -[setText nadd nsub ngt]; rewrite nadd_0_r; reflexivity.
Qed.

Lemma row_column_line fw cc length r index column :
  exists cell,
    texts ext (row_storage (row_column ext options fw cc length r index column))
      = texts ext (row_storage r) ++ [cell] /\
    y_of cell = cursor_y (row_storage r).
Proof.
  destruct (row_column_spec ext options fw cc length r index column)
    as (Ht & _).
  eexists. split; [exact Ht|reflexivity].
Qed.

Lemma row_columns_aligned fw cc length (q0 : Qc) :
  forall columns index r (qs : list Qc),
    cursor_y (row_storage r) = Num q0 ->
    reached_from ext options fw cc length index columns r = map Num qs ->
    Forall (fun q => (q0 < q)%Qc) qs ->
    Forall (fun q => nsub (Num q) (nsub (Num q) (Num q0)) = Num q0) qs ->
    exists cells,
      texts ext
        (row_storage (row_columns ext options fw cc length index columns r)) =
        texts ext (row_storage r) ++ cells /\
      map y_of cells = repeat (Num q0) (List.length columns).
Proof.
  induction columns as [|c columns IH]; intros index r qs Hy Hr Hall Hback.
  - exists []. split; [symmetry; apply app_nil_r|reflexivity].
  - cbn [reached_from] in Hr. destruct qs as [|q qs]; [discriminate Hr|].
    cbn [map] in Hr. injection Hr as Hq Hr.
    apply Forall_cons_iff in Hall as [Hlt Hall].
    apply Forall_cons_iff in Hback as [Hq0 Hback].
    destruct (row_column_line fw cc length r index c) as (cell & Ht & Hc).
    pose proof (row_column_cursor_y fw cc length r index c) as Hcur.
    cbn zeta in Hcur. rewrite Hq, Hy in Hcur.
    replace (ngt (nsub (Num q) (Num q0)) (num_Z 0)) with true in Hcur
      by (symmetry; apply ngt_Num_0; apply Qclt_minus_iff in Hlt; exact Hlt).
    rewrite Hq0 in Hcur.
    destruct (IH (index + 1) _ qs Hcur Hr Hall Hback)
      as (cells & Hts & Hys).
    exists (cell :: cells). cbn [row_columns]. split.
    + rewrite Hts, Ht, <- app_assoc. reflexivity.
    + cbn [map List.length repeat]. rewrite Hys, Hc, Hy. reflexivity.
Qed.

End RowLines.

(** X8. When every cell of a row moves the document down, to finite
    positions below the row's line, and taking the measured height off each
    of these positions gives the row's line back (it does when the two
    subtractions are exact), all the cells of the row are drawn on that
    line, 17 below the document's y before the row. *)
Theorem generateTableRow_cells_on_one_line :
  forall ext options (type : RowType) (columns : list Cell) (s : Storage)
         (q0 : Qc) (qs : list Qc),
    nadd (doc_y (getDocument ext s)) (num_Z 17) = Num q0 ->
    cells_reached ext options type columns s = map Num qs ->
    Forall (fun q => (q0 < q)%Qc) qs ->
    Forall (fun q => nsub (Num q) (nsub (Num q) (Num q0)) = Num q0) qs ->
    map y_of (drawn ext s (generateTableRow ext options type columns s)) =
    repeat (Num q0) (List.length columns).
Proof.
  intros ext options type columns s q0 qs Hy Hr Hall Hback.
  unfold drawn. rewrite generateTableRow_texts.
  unfold generateTableRow_cells. cbn zeta. rewrite texts_setCursor.
  unfold cells_reached in Hr. cbn zeta in Hr.
  match type of Hr with
  | reached_from _ _ ?fw ?cc ?len 0 _ ?r0 = _ =>
      destruct (row_columns_aligned ext options fw cc len q0 columns 0 r0 qs)
        as (cells & Ht & Hys); [exact Hy|exact Hr|exact Hall|exact Hback|]
  end.
  change (on_row_line ext s)
    with (set_cursor_y
            (nadd (cursor_y (set_cursor_y (doc_y (getDocument ext s)) s))
               (num_Z 17))
            (set_cursor_y (doc_y (getDocument ext s)) s)) in Ht.
  rewrite Ht. cbn [row_start row_storage].
  change (texts ext (set_cursor_y ?a (set_cursor_y ?b s))) with (texts ext s).
  rewrite skipn_length_app. exact Hys.
Qed.

Lemma generateTableRow_cells_on_one_line_witness :
  (nadd (doc_y (getDocument sample_ext initial_storage)) (num_Z 17) =
     Num (Q2Qc 89) /\
   cells_reached sample_ext sample_options Row wrapping_row initial_storage =
     map Num [Q2Qc (2803 # 25); Q2Qc (2514 # 25); Q2Qc (2514 # 25)] /\
   Forall (fun q => (Q2Qc 89 < q)%Qc)
     [Q2Qc (2803 # 25); Q2Qc (2514 # 25); Q2Qc (2514 # 25)] /\
   Forall (fun q => nsub (Num q) (nsub (Num q) (Num (Q2Qc 89))) =
                    Num (Q2Qc 89))
     [Q2Qc (2803 # 25); Q2Qc (2514 # 25); Q2Qc (2514 # 25)]) /\
  map y_of
    (drawn sample_ext initial_storage
       (generateTableRow sample_ext sample_options Row wrapping_row
          initial_storage)) =
  repeat (Num (Q2Qc 89)) 3.
Proof.
  assert (H1 : nadd (doc_y (getDocument sample_ext initial_storage))
                 (num_Z 17) = Num (Q2Qc 89))
    by (vm_compute; f_equal; apply Qc_is_canon; reflexivity).
  assert (H2 : cells_reached sample_ext sample_options Row wrapping_row
                 initial_storage =
               map Num [Q2Qc (2803 # 25); Q2Qc (2514 # 25); Q2Qc (2514 # 25)])
    by (vm_compute;
        repeat (apply (f_equal2 (@cons number));
                [apply f_equal, Qc_is_canon; reflexivity|]);
        reflexivity).
  assert (H3 : Forall (fun q => (Q2Qc 89 < q)%Qc)
                 [Q2Qc (2803 # 25); Q2Qc (2514 # 25); Q2Qc (2514 # 25)])
    by (repeat constructor).
  assert (H4 : Forall (fun q => nsub (Num q) (nsub (Num q) (Num (Q2Qc 89))) =
                                Num (Q2Qc 89))
                 [Q2Qc (2803 # 25); Q2Qc (2514 # 25); Q2Qc (2514 # 25)])
    by (repeat constructor;
        vm_compute; apply f_equal, Qc_is_canon; reflexivity).
  split; [repeat split; assumption|].
  exact (generateTableRow_cells_on_one_line sample_ext sample_options Row
           wrapping_row initial_storage (Q2Qc 89) _ H1 H2 H3 H4).
Defined.

(** X9. When the first cell of a row does not move the document below the
    row's line (an empty text, or a page break), the second cell is not
    drawn on that line but 11.5 above the y the first cell reached. *)
Theorem generateTableRow_second_cell_shifted :
  forall ext options (type : RowType) (c0 c1 : Cell) (rest : list Cell)
         (s : Storage) (q0 q1 : Qc),
    nadd (doc_y (getDocument ext s)) (num_Z 17) = Num q0 ->
    hd NaN (cells_reached ext options type (c0 :: c1 :: rest) s) = Num q1 ->
    (q1 <= q0)%Qc ->
    map y_of
      (firstn 2
         (drawn ext s
            (generateTableRow ext options type (c0 :: c1 :: rest) s))) =
    [Num q0; Num (q1 - Q2Qc (23 # 2))%Qc].
Proof.
  intros ext options type c0 c1 rest s q0 q1 Hy Hr Hle.
  unfold drawn. rewrite generateTableRow_texts.
  unfold generateTableRow_cells. cbn zeta. rewrite texts_setCursor.
  unfold cells_reached in Hr. cbn zeta in Hr. cbn [reached_from hd] in Hr.
  cbn [row_columns].
  change (on_row_line ext s)
    with (set_cursor_y
            (nadd (cursor_y (set_cursor_y (doc_y (getDocument ext s)) s))
               (num_Z 17))
            (set_cursor_y (doc_y (getDocument ext s)) s)) in Hr.
  match type of Hr with
  | doc_y (getDocument ext (row_storage (row_column _ _ ?fw ?cc ?len ?r0 0 c0)))
    = _ =>
      set (r1 := row_column ext options fw cc len r0 0 c0) in *;
      destruct (row_column_line ext options fw cc len r0 0 c0)
        as (cell0 & Ht0 & Hc0);
      pose proof (row_column_cursor_y ext options fw cc len r0 0 c0) as Hcur;
      destruct (row_column_line ext options fw cc len r1 (0 + 1) c1)
        as (cell1 & Ht1 & Hc1);
      destruct (grows_row_columns ext options fw cc len rest (0 + 1 + 1)
                  (row_column ext options fw cc len r1 (0 + 1) c1))
        as ((more & Hmore) & _)
  end.
  fold r1 in Ht0, Hcur. cbn zeta in Hcur. rewrite Hr in Hcur.
  cbn [row_start row_storage cursor_y set_cursor_y] in Hcur, Hc0, Ht0.
  rewrite Hy in Hcur, Hc0.
  change (nsub (Num q1) (Num q0)) with (Num (q1 - q0)%Qc) in Hcur.
  rewrite ngt_Num_0_false in Hcur.
  2:{ apply Qcle_minus_iff in Hle. apply Qcopp_le_compat in Hle.
      replace (- (q0 + - q1))%Qc with (q1 - q0)%Qc in Hle by ring.
      replace (- 0)%Qc with 0%Qc in Hle by ring. exact Hle. }
  change (nsub (Num q1) single_line_height)
    with (Num (q1 - Q2Qc (23 # 2))%Qc) in Hcur.
  rewrite Hmore, Ht1, Ht0, <- !app_assoc.
  change (texts ext (set_cursor_y ?a (set_cursor_y ?b s))) with (texts ext s).
  rewrite skipn_length_app. cbn [app firstn map].
  rewrite Hc0, Hc1, Hcur. reflexivity.
Qed.

Lemma generateTableRow_second_cell_shifted_witness :
  (nadd (doc_y (getDocument sample_ext initial_storage)) (num_Z 17) =
     Num (Q2Qc 89) /\
   hd NaN (cells_reached sample_ext sample_options Row row_with_empty_cell
             initial_storage) = Num (Q2Qc 89) /\
   (Q2Qc 89 <= Q2Qc 89)%Qc) /\
  map y_of
    (firstn 2
       (drawn sample_ext initial_storage
          (generateTableRow sample_ext sample_options Row row_with_empty_cell
             initial_storage))) =
  [Num (Q2Qc 89); Num (Q2Qc 89 - Q2Qc (23 # 2))%Qc].
Proof.
  assert (H1 : nadd (doc_y (getDocument sample_ext initial_storage))
                 (num_Z 17) = Num (Q2Qc 89))
    by (vm_compute; f_equal; apply Qc_is_canon; reflexivity).
  assert (H2 : hd NaN (cells_reached sample_ext sample_options Row
                         row_with_empty_cell initial_storage) =
               Num (Q2Qc 89))
    by (vm_compute; f_equal; apply Qc_is_canon; reflexivity).
  assert (H3 : (Q2Qc 89 <= Q2Qc 89)%Qc) by apply Qcle_refl.
  split; [repeat split; assumption|].
  exact (generateTableRow_second_cell_shifted sample_ext sample_options Row
           (text_cell "") (number_cell 2) [price_cell "53"] initial_storage
           (Q2Qc 89) (Q2Qc 89) H1 H2 H3).
Defined.

(** X10. In a line of the totals the label is drawn at the quantity position
    12 below the cursor, at [y0], and the value at the total position: when
    the label moved the document down to [yL], at [yL - (yL - y0)], which
    is the label's y when the two subtractions are exact; and otherwise
    11.5 above the y the document reports after the label. *)
Theorem total_line_value_y :
  forall ext options (s : Storage) (t : Total) (y0 yL : Qc),
    let tbl := table (style options) in
    nadd (cursor_y s) (num_Z 12) = Num y0 ->
    doc_y (getDocument ext (total_label_drawn ext options s t)) = Num yL ->
    ((y0 < yL)%Qc ->
     map x_and_y (drawn ext s (total_line ext options s t)) =
     [(position (quantity tbl), Num y0);
      (position (total tbl), nsub (Num yL) (nsub (Num yL) (Num y0)))]) /\
    ((yL <= y0)%Qc ->
     map x_and_y (drawn ext s (total_line ext options s t)) =
     [(position (quantity tbl), Num y0);
      (position (total tbl), Num (yL - Q2Qc (23 # 2))%Qc)]).
Proof.
  intros ext options s t y0 yL tbl Hy0 HyL.
  assert (Hcur : cursor_y (total_label_drawn ext options s t) =
                 if ngt (Num (yL - y0)%Qc) (num_Z 0)
                 then nsub (Num yL) (nsub (Num yL) (Num y0))
                 else Num (yL - Q2Qc (23 # 2))%Qc).
  { unfold total_label_drawn in *. cbn zeta in *.
    rewrite setText_cursor_y, HyL. unfold held_or_advanced.
    cbn [skipDown marginTop default setCursor cursor_y set_cursor_x].
    rewrite Hy0. reflexivity. }
  assert (Hd : map x_and_y (drawn ext s (total_line ext options s t)) =
               [(position (quantity tbl), Num y0);
                (position (total tbl),
                 cursor_y (total_label_drawn ext options s t))]).
  { unfold drawn.
    change (total_line ext options s t)
      with (setText ext options
              (VString (cell_text ext options (total_value t) (total_price t)))
              {| fontWeight := None; colorCode := Some "secondary"%string;
                 fontSize := None; align := None; color := None;
                 marginTop := None;
                 maxWidth := Some (column_maxWidth (total tbl));
                 skipDown := None |}
              (setCursor X (position (total tbl))
                 (total_label_drawn ext options s t))).
    match goal with
    | |- context [setText ext options ?v ?o ?s0] =>
        destruct (setText_frame ext options v o s0) as (_ & _ & _ & ->)
    end.
    rewrite texts_setCursor. unfold total_label_drawn at 1. cbn zeta.
    match goal with
    | |- context [setText ext options ?v ?o ?s0] =>
        destruct (setText_frame ext options v o s0) as (_ & _ & _ & ->)
    end.
    rewrite texts_setCursor, <- app_assoc, skipn_length_app.
    cbn [app map x_and_y setCursor cursor_x cursor_y set_cursor_x marginTop
           default].
    rewrite nadd_0_r, Hy0. reflexivity. }
  split; intros H; rewrite Hd, Hcur.
  - replace (ngt (Num (yL - y0)%Qc) (num_Z 0)) with true; [reflexivity|].
    symmetry. apply ngt_Num_0. apply Qclt_minus_iff in H. exact H.
  - rewrite ngt_Num_0_false; [reflexivity|].
    apply Qcle_minus_iff in H. apply Qcopp_le_compat in H.
    replace (- (y0 + - yL))%Qc with (yL - y0)%Qc in H by ring.
    replace (- 0)%Qc with 0%Qc in H by ring. exact H.
Qed.

Lemma total_line_value_y_witness :
  (nadd (cursor_y (set_cursor_y (num_Z 400) initial_storage)) (num_Z 12) =
     Num (Q2Qc 412) /\
   doc_y (getDocument sample_ext
            (total_label_drawn sample_ext sample_options
               (set_cursor_y (num_Z 400) initial_storage) sample_total)) =
     Num (Q2Qc (10589 # 25)) /\
   (Q2Qc 412 < Q2Qc (10589 # 25))%Qc) /\
  map x_and_y
    (drawn sample_ext (set_cursor_y (num_Z 400) initial_storage)
       (total_line sample_ext sample_options
          (set_cursor_y (num_Z 400) initial_storage) sample_total)) =
  [(position (quantity (table (style sample_options))), Num (Q2Qc 412));
   (position (total (table (style sample_options))),
    nsub (Num (Q2Qc (10589 # 25)))
      (nsub (Num (Q2Qc (10589 # 25))) (Num (Q2Qc 412))))].
Proof.
  assert (H1 : nadd (cursor_y (set_cursor_y (num_Z 400) initial_storage))
                 (num_Z 12) = Num (Q2Qc 412))
    by (vm_compute; f_equal; apply Qc_is_canon; reflexivity).
  assert (H2 : doc_y (getDocument sample_ext
                 (total_label_drawn sample_ext sample_options
                    (set_cursor_y (num_Z 400) initial_storage) sample_total)) =
               Num (Q2Qc (10589 # 25)))
    by (vm_compute; f_equal; apply Qc_is_canon; reflexivity).
  assert (H3 : (Q2Qc 412 < Q2Qc (10589 # 25))%Qc) by reflexivity.
  split; [repeat split; assumption|].
  exact (proj1 (total_line_value_y sample_ext sample_options
                  (set_cursor_y (num_Z 400) initial_storage) sample_total
                  (Q2Qc 412) (Q2Qc (10589 # 25)) H1 H2) H3).
Defined.

(** ** Where the header and the details start *)

(** X11. [generateDetails] does not depend on the cursor it is called with.
    Its first label is drawn 26 below the header's height
    ([header.height + 18], then the label's margin 8), at the left margin for
    the customer and at the header's text position for the seller, 250
    wide; with no line it draws nothing and records [header.height + 18]. *)
Theorem generateDetails_start :
  forall ext options (type : DetailsType) (s : Storage),
    let top := nadd (header_height (header (style options))) (num_Z 18) in
    (forall x y,
       generateDetails ext options type (set_cursor_x x (set_cursor_y y s)) =
       generateDetails ext options type s) /\
    (forall l rest,
       invoice_lines options type = l :: rest ->
       hd_error (drawn ext s (generateDetails ext options type s)) =
       Some (valueOrTransliterate ext options (label_colon l),
             details_x options type, nadd top (num_Z 8), Some (num_Z 250))) /\
    (invoice_lines options type = [] ->
     drawn ext s (generateDetails ext options type s) = [] /\
     height_of type (generateDetails ext options type s) = top).
Proof.
  intros ext options type s top. split; [|split].
  - intros x y. destruct type; reflexivity.
  - intros l rest Hl. unfold generateDetails. cbn zeta. rewrite Hl.
    cbn [fold_left]. unfold details_line at 2. cbn zeta.
    match goal with
    | |- context [setText ext options (label_colon l) ?o ?s0] =>
        destruct (setText_frame ext options (label_colon l) o s0)
          as (_ & _ & _ & Ht);
        set (s1 := setText ext options (label_colon l) o s0) in *
    end.
    erewrite hd_drawn.
    + reflexivity.
    + rewrite Ht. destruct type; reflexivity.
    + apply extends_of_grows with (options := options).
      eapply grows_trans; [|apply grows_set_height_of].
      eapply grows_trans;
        [|apply grows_fold_left; intros; apply grows_details_line].
      apply grows_fold_left. intros; apply grows_setText.
  - intros Hl. unfold generateDetails. cbn zeta. rewrite Hl. cbn [fold_left].
    split.
    + unfold drawn.
      replace (texts ext (set_height_of type _ _)) with (texts ext s)
        by (destruct type; reflexivity).
      apply skipn_all.
    + destruct type; reflexivity.
Qed.

Lemma generateDetails_start_witness :
  (invoice_lines sample_options Customer =
     {| line_label := str "Bill To";
        line_value_of :=
          Multiple [VString (str "John Doe"); VString (str "Acme Corp");
                    VString (str "USA")] |} :: [] /\
   invoice_lines options_without_details Seller = []) /\
  hd_error
    (drawn sample_ext initial_storage
       (generateDetails sample_ext sample_options Customer initial_storage)) =
    Some (str "Bill To:", num_Z 30, nadd (nadd (num_Z 150) (num_Z 18)) (num_Z 8),
          Some (num_Z 250)) /\
  height_of Seller
    (generateDetails sample_ext options_without_details Seller
       initial_storage) = nadd (num_Z 150) (num_Z 18).
Proof.
  assert (H1 : invoice_lines sample_options Customer =
               {| line_label := str "Bill To";
                  line_value_of :=
                    Multiple [VString (str "John Doe");
                              VString (str "Acme Corp");
                              VString (str "USA")] |} :: []) by reflexivity.
  assert (H2 : invoice_lines options_without_details Seller = [])
    by reflexivity.
  split; [split; assumption|]. split.
  - exact (proj1 (proj2 (generateDetails_start sample_ext sample_options
                           Customer initial_storage)) _ _ H1).
  - exact (proj2 (proj2 (proj2 (generateDetails_start sample_ext
                                  options_without_details Seller
                                  initial_storage)) H2)).
Defined.

(** X12. [generateHeader] does not depend on the cursor it is called with,
    and the first text it draws is the title, at the header's text position
    and at the document's top margin. *)
Theorem generateHeader_title :
  forall ext options (s : Storage),
    (forall x y,
       generateHeader ext options (set_cursor_x x (set_cursor_y y s)) =
       generateHeader ext options s) /\
    hd_error (drawn ext s (generateHeader ext options s)) =
    Some (valueOrTransliterate ext options
            (VString (invoice_name (invoice options))),
          textPosition (header (style options)),
          doc_marginTop (style_document (style options)), None).
Proof.
  intros ext options s. split.
  - intros x y. unfold generateHeader. cbn zeta.
    destruct (header_image _) as [image|]; [destruct (truthy _)|];
      reflexivity.
  - unfold generateHeader. cbn zeta.
    match goal with
    | |- context [setText ext options (VString ?n) ?o ?s0] =>
        destruct (setText_frame ext options (VString n) o s0)
          as (_ & _ & _ & Ht);
        set (s1 := setText ext options (VString n) o s0) in *
    end.
    erewrite hd_drawn.
    + reflexivity.
    + rewrite Ht. rewrite !texts_setCursor.
      cbn [setCursor cursor_x cursor_y set_cursor_x set_cursor_y marginTop
             default maxWidth].
      rewrite nadd_0_r. f_equal.
      destruct (header_image _) as [image|]; [destruct (truthy _)|];
        unfold texts, call_image, call; simpl;
        rewrite ?texts_of_app; simpl; rewrite ?app_nil_r; reflexivity.
    + apply extends_of_grows with (options := options).
      apply grows_fold_left. intros s0 line.
      eapply grows_trans;
        [apply grows_setText
        |apply grows_fold_left; intros; apply grows_setText].
Qed.

(** ** Amounts that round to zero *)

(** X13. A negative amount nearer to zero than half a hundredth is printed
    with its sign: [prettyPrice] gives "-0.00", followed by the currency
    suffix. *)
Theorem prettyPrice_negative_zero :
  forall ext options (q : Qc),
    is_negative q = true ->
    200 * Qc_abs_num q < Z.pos (Qden q) ->
    prettyPrice ext options (VNumber (Num q)) =
    str "-0.00" ++ currency_suffix options.
Proof.
  intros ext options q Hneg Hsmall.
  rewrite prettyPrice_suffix. cbn [toFixed2].
  assert (Ha : 0 <= Qc_abs_num q) by (unfold Qc_abs_num; apply Z.abs_nonneg).
  assert (Hb : below_1e21 q = true).
  { unfold below_1e21. apply Z.ltb_lt.
    assert (Hk : 1 <= ten_pow_21) by (intros H; discriminate H).
    nia. }
  rewrite Hb, Hneg.
  replace (hundredths (Qc_abs_num q) (Qden q)) with 0%N; [reflexivity|].
  unfold hundredths. rewrite Z.div_small by lia. reflexivity.
Qed.

Lemma prettyPrice_negative_zero_witness :
  (is_negative (Q2Qc (-4 # 1000)) = true /\
   200 * Qc_abs_num (Q2Qc (-4 # 1000)) < Z.pos (Qden (Q2Qc (-4 # 1000)))) /\
  prettyPrice sample_ext sample_options (VNumber (Num (Q2Qc (-4 # 1000)))) =
  str "-0.00 EUR".
Proof.
  assert (H1 : is_negative (Q2Qc (-4 # 1000)) = true) by reflexivity.
  assert (H2 : 200 * Qc_abs_num (Q2Qc (-4 # 1000)) <
               Z.pos (Qden (Q2Qc (-4 # 1000)))) by reflexivity.
  split; [split; assumption|].
  exact (prettyPrice_negative_zero sample_ext sample_options
           (Q2Qc (-4 # 1000)) H1 H2).
Defined.

(** ** The calls of a draw *)

Lemma getFontOrFallback_doc_ops ext options type v s :
  let f := fonts (style options) in
  doc_ops (getDocument ext (snd (getFontOrFallback ext options type v s))) =
  doc_ops (getDocument ext s) ++
  (if selects_fallback ext options v && negb (fallback_loaded s)
   then [OpRegisterFont (fallback_name (fallback f))
           (fallback_path (fallback f))]
   else []).
Proof.
  unfold getFontOrFallback, selects_fallback; cbn zeta.
  destruct (fallback_enabled _); simpl; [|symmetry; apply app_nil_r].
  destruct (RegExp_test (font_range _) _); simpl;
    [|symmetry; apply app_nil_r].
  destruct (RegExp_test (fallback_range _) _); simpl;
    [symmetry; apply app_nil_r|].
  destruct (fallback_loaded s); simpl; [symmetry; apply app_nil_r|].
  reflexivity.
Qed.

Lemma doc_ops_call ext o s :
  doc_ops (getDocument ext (call ext o s)) = doc_ops (getDocument ext s) ++ [o].
Proof. reflexivity. Qed.

Lemma setText_doc_ops ext options t o s :
  doc_ops (getDocument ext (setText ext options t o s)) =
  doc_ops (getDocument ext s) ++ setText_calls ext options t o s.
Proof.
  unfold setText. rewrite getDocument_readback.
  unfold setText_draw, setText_calls.
  match goal with
  | |- context [getFontOrFallback ext options ?w t ?s0] =>
      pose proof (getFontOrFallback_doc_ops ext options w t s0) as Hops;
      pose proof (getFontOrFallback_name ext options w t s0) as Hname;
      pose proof (getFontOrFallback_frame ext options w t s0) as Hframe;
      set (s00 := s0) in *;
      destruct (getFontOrFallback ext options w t s00) as [name s1]
  end.
  cbn [fst snd] in Hops, Hname, Hframe. cbn zeta in Hops, Hname, Hframe.
  destruct Hframe as (Hx & Hy & _).
  cbn zeta. unfold call_text. cbn [getDocument document set_document doc_ops].
  fold (getDocument ext (call ext (OpFontSize
          (if (default "regular" (fontSize o) =? "regular")%string
           then regularSize (text (style options))
           else headingSize (text (style options))))
          (call ext (OpFillColor (default ""%string (color o)))
             (call ext (OpFont name) s1)))).
  rewrite !doc_ops_call, Hops.
  change (cursor_x (call ext ?a (call ext ?b (call ext ?c s1))))
    with (cursor_x s1).
  change (cursor_y (call ext ?a (call ext ?b (call ext ?c s1))))
    with (cursor_y s1).
  rewrite Hx, Hy, Hname.
  fold (selects_fallback ext options t).
  assert (Hs0 : doc_ops (getDocument ext s00) =
                doc_ops (getDocument ext s) ++ palette_calls options o /\
                fallback_loaded s00 = fallback_loaded s /\
                cursor_x s00 = cursor_x s /\
                cursor_y s00 =
                  nadd (cursor_y s) (default (num_Z 0) (marginTop o))).
  { unfold s00, palette_calls.
    destruct (negb _); [destruct (_ =? _)%string|];
      repeat split; try reflexivity; symmetry; apply app_nil_r. }
  destruct Hs0 as (-> & -> & -> & ->).
  rewrite <- !app_assoc. reflexivity.
Qed.

(** X14. One [setText] issues, in this order: [fillColor] of the palette
    colour when the draw has no colour of its own; [registerFont] of the
    fallback font when the value selects it and it is not loaded yet; then
    [font], [fillColor] of the draw's colour (the empty string when it has
    none), [fontSize] and [text], the text being drawn at the cursor's x and
    at the cursor's y plus [marginTop]. *)
Theorem setText_issues :
  forall ext options (t : value) (o : TextCall) (s : Storage),
    issued ext s (setText ext options t o s) = setText_calls ext options t o s.
Proof.
  intros ext options t o s. unfold issued.
  rewrite setText_doc_ops. apply skipn_length_app.
Qed.

(** X15. A legal line is drawn centred, with no width, at twice the left
    margin and 10 below the cursor. Its colour is a palette code: when
    [legal.color] is absent, empty or "primary" the line is drawn in the
    primary colour, and for any other value in the secondary colour. *)
Theorem legal_line_calls :
  forall ext options (s : Storage) (l : Legal),
    hd_error (issued ext s (legal_line ext options s l)) =
      Some (OpFillColor
              (if (legal_code l =? "primary")%string
               then primaryColor (text (style options))
               else secondaryColor (text (style options)))) /\
    last (issued ext s (legal_line ext options s l)) OpStroke =
      OpText (valueOrTransliterate ext options (VString (legal_value l)))
        (nmul (marginLeft (style_document (style options))) (num_Z 2))
        (nadd (cursor_y s) (num_Z 10)) "center" None /\
    (forall c,
       legal_color l = Some c -> truthy c = true -> c <> "primary"%string ->
       hd_error (issued ext s (legal_line ext options s l)) =
       Some (OpFillColor (secondaryColor (text (style options))))).
Proof.
  intros ext options s l.
  assert (H : issued ext s (legal_line ext options s l) =
              setText_calls ext options (VString (legal_value l))
                {| fontWeight := legal_weight l;
                   colorCode := Some (legal_code l);
                   fontSize := None; align := Some "center"%string;
                   color := None; marginTop := Some (num_Z 10);
                   maxWidth := None; skipDown := None |}
                (setCursor X
                   (nmul (marginLeft (style_document (style options)))
                      (num_Z 2)) s)).
  { unfold issued, legal_line. cbn zeta. rewrite setText_doc_ops.
    apply skipn_length_app. }
  assert (Hhd : hd_error (issued ext s (legal_line ext options s l)) =
                Some (OpFillColor
                        (if (legal_code l =? "primary")%string
                         then primaryColor (text (style options))
                         else secondaryColor (text (style options)))))
    by (rewrite H; reflexivity).
  split; [exact Hhd|]. split.
  - rewrite H. unfold setText_calls. cbn zeta.
    rewrite !app_assoc.
    match goal with
    | |- last (?a ++ [?f; ?c; ?z; ?t]) _ = _ =>
        change (a ++ [f; c; z; t]) with (a ++ [f; c; z] ++ [t]);
        rewrite app_assoc, last_last
    end.
    reflexivity.
  - intros c Hc Ht Hne. rewrite Hhd. unfold legal_code.
    rewrite Hc. cbn [truthy_opt default]. rewrite Ht.
    destruct (String.eqb_spec c "primary"); [congruence|reflexivity].
Qed.

Lemma legal_line_calls_witness :
  (legal_color red_legal = Some "red"%string /\
   truthy "red" = true /\ "red"%string <> "primary"%string) /\
  hd_error
    (issued sample_ext initial_storage
       (legal_line sample_ext sample_options initial_storage red_legal)) =
  Some (OpFillColor "#8F8F8F").
Proof.
  assert (H1 : legal_color red_legal = Some "red"%string) by reflexivity.
  assert (H2 : truthy "red" = true) by reflexivity.
  assert (H3 : "red"%string <> "primary"%string) by discriminate.
  split; [repeat split; assumption|].
  exact (proj2 (proj2 (legal_line_calls sample_ext sample_options
                         initial_storage red_legal)) "red"%string H1 H2 H3).
Defined.

(** ** Invariants of a whole run *)

Section Preserved.

Variable ext : Externals.
Variable options : InvoiceOptions.

(** A property of the storage kept by what the methods are made of: the
    assignments to the cursor and to the heights, the calls other than
    [font], [image] and [setText]. *)
Variable P : Storage -> Prop.
Hypothesis P_assign :
  forall s s', document s' = document s ->
               fallback_loaded s' = fallback_loaded s -> P s -> P s'.
Hypothesis P_call :
  forall o s, fonts_of [o] = [] -> P s -> P (call ext o s).
Hypothesis P_call_image :
  forall path x y w h s, P s -> P (call_image ext path x y w h s).
Hypothesis P_setText :
  forall t o s, P s -> P (setText ext options t o s).

Lemma kept_setCursor axis v s : P s -> P (setCursor axis v s).
Proof. apply P_assign; destruct axis; reflexivity. Qed.

Lemma kept_set_cursor_y v s : P s -> P (set_cursor_y v s).
Proof. apply P_assign; reflexivity. Qed.

Lemma kept_set_height_of type v s : P s -> P (set_height_of type v s).
Proof. apply P_assign; destruct type; reflexivity. Qed.

Lemma kept_fold_left {A : Type} (f : Storage -> A -> Storage) :
  (forall s x, P s -> P (f s x)) ->
  forall l s, P s -> P (fold_left f l s).
Proof.
  intros Hf. induction l as [|x l IH]; intros s Hs; simpl; auto.
Qed.

Lemma kept_loadCustomFonts s : P s -> P (loadCustomFonts ext options s).
Proof.
  intros Hs. unfold loadCustomFonts. cbn zeta.
  destruct (truthy_opt (font_path (normal _)));
    destruct (truthy_opt (font_path (bold _)));
    repeat (apply P_call; [reflexivity|]); exact Hs.
Qed.

Lemma kept_generateHeader s : P s -> P (generateHeader ext options s).
Proof.
  intros Hs. unfold generateHeader. cbn zeta.
  apply kept_fold_left.
  { intros s0 line H0. apply kept_fold_left.
    - intros; apply P_setText; assumption.
    - apply P_setText; assumption. }
  apply P_setText. do 2 apply kept_setCursor.
  destruct (header_image _) as [image|]; [destruct (truthy _)|];
    try apply P_call_image; repeat (apply P_call; [reflexivity|]); exact Hs.
Qed.

Lemma kept_details_line s line : P s -> P (details_line ext options s line).
Proof.
  intros Hs. unfold details_line. cbn zeta.
  apply kept_fold_left; [intros; apply P_setText; assumption|].
  apply P_setText; assumption.
Qed.

Lemma kept_generateDetails type s :
  P s -> P (generateDetails ext options type s).
Proof.
  intros Hs. unfold generateDetails. cbn zeta.
  apply kept_set_height_of.
  apply kept_fold_left; [intros; apply kept_details_line; assumption|].
  destruct type; do 2 apply kept_setCursor; exact Hs.
Qed.

Lemma kept_generateLine s : P s -> P (generateLine ext options s).
Proof.
  intros Hs. unfold generateLine. cbn zeta.
  repeat (apply P_call; [reflexivity|]). apply kept_set_cursor_y. exact Hs.
Qed.

Lemma kept_row_column fw cc length r index column :
  P (row_storage r) ->
  P (row_storage (row_column ext options fw cc length r index column)).
Proof.
  intros Hs. unfold row_column.
  destruct (index <? length - 2); [|destruct (index =? length - 2)];
    cbn -[setText]; apply P_setText; apply (kept_setCursor X); exact Hs.
Qed.

Lemma kept_row_columns fw cc length : forall columns index r,
  P (row_storage r) ->
  P (row_storage (row_columns ext options fw cc length index columns r)).
Proof.
  induction columns as [|c columns IH]; intros index r Hs; cbn [row_columns].
  - exact Hs.
  - apply IH. apply kept_row_column. exact Hs.
Qed.

Lemma kept_generateTableRow type columns s :
  P s -> P (generateTableRow ext options type columns s).
Proof.
  intros Hs. unfold generateTableRow. cbn zeta.
  assert (Hc : P (generateTableRow_cells ext options type columns s)).
  { unfold generateTableRow_cells. cbn zeta.
    apply kept_setCursor. apply kept_row_columns.
    cbn [row_start row_storage]. do 2 apply kept_set_cursor_y. exact Hs. }
  destruct type; [apply kept_generateLine|]; exact Hc.
Qed.

Lemma kept_total_line s t : P s -> P (total_line ext options s t).
Proof.
  intros Hs. unfold total_line. cbn zeta.
  apply P_setText, kept_setCursor, P_setText, kept_setCursor. exact Hs.
Qed.

Lemma kept_generateParts s : P s -> P (generateParts ext options s).
Proof.
  intros Hs. unfold generateParts. cbn zeta.
  apply kept_fold_left; [intros; apply kept_total_line; assumption|].
  apply kept_set_cursor_y.
  apply kept_fold_left; [intros; apply kept_generateTableRow; assumption|].
  apply kept_generateTableRow, P_setText, kept_setCursor. exact Hs.
Qed.

Lemma kept_generateLegal s : P s -> P (generateLegal ext options s).
Proof.
  intros Hs. unfold generateLegal. cbn zeta.
  apply kept_fold_left.
  - intros s0 l H0. unfold legal_line. cbn zeta.
    apply P_setText, kept_setCursor. exact H0.
  - apply kept_set_cursor_y. exact Hs.
Qed.

Lemma kept_generateBuffer s :
  P (set_document (getDocument ext s) s) -> P (generateBuffer ext options s).
Proof.
  intros Hs. unfold generateBuffer. cbn zeta.
  apply kept_generateLegal, kept_generateParts, kept_generateDetails,
    kept_generateDetails, kept_generateHeader, kept_loadCustomFonts.
  exact Hs.
Qed.

End Preserved.

Lemma fonts_of_app (a b : list op) : fonts_of (a ++ b) = fonts_of a ++ fonts_of b.
Proof.
  induction a as [|o a IH]; simpl; [reflexivity|].
  destruct o; simpl; rewrite ?IH; reflexivity.
Qed.

Lemma registered_after_app r seen (a b : list op) :
  registered_after r seen (a ++ b) =
  registered_after r (registered_after r seen a) b.
Proof.
  unfold registered_after.
  rewrite registrations_of_app, existsb_app, orb_assoc. reflexivity.
Qed.

Lemma registered_after_seen r (a : list op) : registered_after r true a = true.
Proof. reflexivity. Qed.

Lemma fonts_registered_app r : forall (a b : list op) seen,
  fonts_registered r seen (a ++ b) =
  fonts_registered r seen a &&
  fonts_registered r (registered_after r seen a) b.
Proof.
  induction a as [|o a IH]; intros b seen.
  - unfold registered_after. simpl. rewrite orb_false_r. reflexivity.
  - destruct o; cbn [app fonts_registered];
      try (rewrite IH; unfold registered_after; cbn [registrations_of];
           reflexivity).
    + rewrite IH. unfold registered_after.
      cbn [registrations_of existsb fst snd]. rewrite orb_assoc. reflexivity.
    + rewrite IH, andb_assoc. unfold registered_after.
      cbn [registrations_of]. reflexivity.
Qed.

Lemma fonts_registered_seen r : forall (ops : list op),
  fonts_registered r true ops = true.
Proof.
  induction ops as [|o ops IH]; [reflexivity|].
  destruct o; cbn [fonts_registered]; rewrite ?orb_true_r; simpl; exact IH.
Qed.

Lemma registration_eqb_eq r name path :
  registration_eqb r name path = true -> (name, path) = r.
Proof.
  unfold registration_eqb. intros H. apply andb_true_iff in H as [Hn Hp].
  apply String.eqb_eq in Hn, Hp. destruct r; simpl in *; congruence.
Qed.

Lemma registered_after_In r (ops : list op) :
  registered_after r false ops = true -> In r (registrations_of ops).
Proof.
  unfold registered_after. cbn [orb]. intros H.
  apply existsb_exists in H as ([name path] & Hin & Heq).
  apply registration_eqb_eq in Heq. cbn [fst snd] in Heq.
  rewrite <- Heq. exact Hin.
Qed.

(** What [fonts_registered] says, call by call *)
Lemma fonts_registered_at r : forall (ops : list op) (i : nat),
  fonts_registered r false ops = true ->
  nth_error ops i = Some (OpFont (fst r)) ->
  In r (registrations_of (firstn i ops)).
Proof.
  intros ops i Hok Hnth.
  apply nth_error_split in Hnth as (a & b & Hops & Hlen).
  subst ops i. rewrite firstn_app, firstn_all, Nat.sub_diag.
  cbn [firstn]. rewrite app_nil_r.
  rewrite fonts_registered_app in Hok.
  apply andb_true_iff in Hok as [_ Hok].
  cbn [fonts_registered] in Hok. rewrite String.eqb_refl in Hok.
  cbn [negb orb] in Hok. apply andb_true_iff in Hok as [Hseen _].
  apply registered_after_In. exact Hseen.
Qed.

Section FallbackFirst.

Variable ext : Externals.
Variable options : InvoiceOptions.

Hypothesis normal_is_not_fallback :
  font_name (normal (fonts (style options))) <>
  fallback_name (fallback (fonts (style options))).
Hypothesis bold_is_not_fallback :
  font_name (bold (fonts (style options))) <>
  fallback_name (fallback (fonts (style options))).

Lemma first_assign s s' :
  document s' = document s -> fallback_loaded s' = fallback_loaded s ->
  fallback_registered_first ext options s ->
  fallback_registered_first ext options s'.
Proof.
  unfold fallback_registered_first, getDocument. intros -> ->. trivial.
Qed.

Lemma first_append (new : list op) s s' :
  doc_ops (getDocument ext s') = doc_ops (getDocument ext s) ++ new ->
  fallback_loaded s' = fallback_loaded s ->
  fonts_of new = [] ->
  fallback_registered_first ext options s ->
  fallback_registered_first ext options s'.
Proof.
  intros Hops Hl Hnew (Hok & Hreg). unfold fallback_registered_first.
  rewrite Hops, Hl, fonts_registered_app, registered_after_app, Hok.
  split.
  - cbn [andb].
    generalize (registered_after (fallback_registration options) false
                  (doc_ops (getDocument ext s))).
    clear - Hnew. induction new as [|o new IH]; intros seen; [reflexivity|].
    destruct o; cbn [fonts_of] in Hnew; try discriminate Hnew;
      cbn [fonts_registered]; apply IH; exact Hnew.
  - intros L. rewrite (Hreg L). reflexivity.
Qed.

Lemma palette_calls_registered r b o :
  fonts_registered r b (palette_calls options o) = true /\
  registered_after r b (palette_calls options o) = b.
Proof.
  unfold palette_calls, registered_after.
  destruct (negb _); cbn [fonts_registered registrations_of existsb];
    rewrite orb_false_r; split; reflexivity.
Qed.

Lemma first_setText t o s :
  fallback_registered_first ext options s ->
  fallback_registered_first ext options (setText ext options t o s).
Proof.
  intros (Hok & Hreg). unfold fallback_registered_first.
  rewrite setText_doc_ops, setText_loaded.
  rewrite fonts_registered_app, registered_after_app, Hok. cbn [andb].
  unfold setText_calls. cbn zeta.
  set (r := fallback_registration options) in *.
  set (seen := registered_after r false (doc_ops (getDocument ext s))) in *.
  rewrite fonts_registered_app, registered_after_app.
  destruct (palette_calls_registered r seen o) as [-> ->]. cbn [andb].
  destruct (selects_fallback ext options t) eqn:Hsel.
  - destruct (fallback_loaded s) eqn:L; cbn [andb negb orb app].
    + rewrite (Hreg eq_refl). split; [|reflexivity].
      apply fonts_registered_seen.
    + cbn [fonts_registered registered_after registrations_of existsb].
      subst r. unfold registration_eqb, fallback_registration. cbn [fst snd].
      rewrite !String.eqb_refl. cbn [andb negb orb]. rewrite !orb_true_r.
      split; [reflexivity|].
      intros _. unfold registered_after.
      cbn [registrations_of existsb fst snd]. unfold registration_eqb.
      cbn [fst snd]. rewrite !String.eqb_refl. cbn [andb orb].
      apply orb_true_r.
  - cbn [andb app]. rewrite orb_false_r. split.
    + cbn [fonts_registered].
      replace (fonts_name options _ =? fst r)%string with false.
      * reflexivity.
      * symmetry. apply String.eqb_neq.
        subst r. unfold fallback_registration. cbn [fst].
        destruct (coerce_type _); assumption.
    + intros L.
      unfold registered_after. cbn [registrations_of existsb].
      rewrite orb_false_r. apply Hreg. exact L.
Qed.

Lemma first_generateBuffer :
  fallback_registered_first ext options
    (generateBuffer ext options initial_storage).
Proof.
  apply kept_generateBuffer.
  - apply first_assign.
  - intros o s Ho. apply first_append with (new := [o]);
      [reflexivity|reflexivity|exact Ho].
  - intros path x y w h s.
    apply first_append with (new := [OpImage path x y w h]); reflexivity.
  - apply first_setText.
  - split; [reflexivity|discriminate].
Qed.

End FallbackFirst.

(** X16. When the fallback font's name is neither the normal font's nor
    the bold font's, every [font] call of a run that sets the fallback
    font comes after the [registerFont] call that registers it. *)
Theorem fallback_registered_before_use :
  forall ext options (i : nat),
    font_name (normal (fonts (style options))) <>
      fallback_name (fallback (fonts (style options))) ->
    font_name (bold (fonts (style options))) <>
      fallback_name (fallback (fonts (style options))) ->
    let ops :=
      doc_ops (getDocument ext (generateBuffer ext options initial_storage)) in
    nth_error ops i =
      Some (OpFont (fallback_name (fallback (fonts (style options))))) ->
    In (fallback_registration options) (registrations_of (firstn i ops)).
Proof.
  intros ext options i Hn Hb ops Hnth.
  destruct (first_generateBuffer ext options Hn Hb) as (Hok & _).
  exact (fonts_registered_at (fallback_registration options) ops i Hok Hnth).
Qed.

Lemma fallback_registered_before_use_witness :
  nth_error
    (doc_ops (getDocument sample_ext
       (generateBuffer sample_ext sample_options initial_storage))) 134 =
    Some (OpFont "Noto Sans") /\
  In (fallback_registration sample_options)
    (registrations_of
       (firstn 134
          (doc_ops (getDocument sample_ext
             (generateBuffer sample_ext sample_options initial_storage))))).
Proof.
  split; [vm_compute; reflexivity|].
  apply (fallback_registered_before_use sample_ext sample_options 134).
  - vm_compute. discriminate.
  - vm_compute. discriminate.
  - vm_compute. reflexivity.
Defined.

Section FallbackDisabled.

Variable ext : Externals.
Variable options : InvoiceOptions.

Hypothesis disabled :
  fallback_enabled (fallback (fonts (style options))) = false.

Lemma disabled_selects v : selects_fallback ext options v = false.
Proof. unfold selects_fallback. cbn zeta. rewrite disabled. reflexivity. Qed.

Lemma disabled_value v : valueOrTransliterate ext options v = ToString ext v.
Proof. unfold valueOrTransliterate. cbn zeta. rewrite disabled. reflexivity. Qed.

Lemma disabled_existsb vs : existsb (selects_fallback ext options) vs = false.
Proof.
  induction vs as [|v vs IH]; [reflexivity|].
  cbn [existsb]. rewrite disabled_selects, IH. reflexivity.
Qed.

Lemma configured_append (new : list op) s s' :
  doc_ops (getDocument ext s') = doc_ops (getDocument ext s) ++ new ->
  fonts_of new = [] ->
  configured_fonts_only ext options s -> configured_fonts_only ext options s'.
Proof.
  unfold configured_fonts_only. intros -> Hnew H.
  rewrite fonts_of_app, Hnew, app_nil_r. exact H.
Qed.

Lemma configured_setText t o s :
  configured_fonts_only ext options s ->
  configured_fonts_only ext options (setText ext options t o s).
Proof.
  unfold configured_fonts_only. intros H.
  rewrite setText_doc_ops, fonts_of_app. apply Forall_app. split; [exact H|].
  unfold setText_calls. cbn zeta. rewrite disabled_selects. cbn [andb app].
  rewrite fonts_of_app.
  replace (fonts_of (palette_calls options o)) with (@nil string)
    by (unfold palette_calls; destruct (negb _); reflexivity).
  cbn [fonts_of app]. constructor; [|constructor].
  destruct (coerce_type _); [left|right]; reflexivity.
Qed.

Lemma configured_generateBuffer :
  configured_fonts_only ext options (generateBuffer ext options initial_storage).
Proof.
  apply kept_generateBuffer.
  - unfold configured_fonts_only, getDocument. intros s s' -> _. trivial.
  - intros o s Ho. apply configured_append with (new := [o]);
      [reflexivity|exact Ho].
  - intros path x y w h s.
    apply configured_append with (new := [OpImage path x y w h]); reflexivity.
  - apply configured_setText.
  - constructor.
Qed.

End FallbackDisabled.

(** X17. With the fallback font disabled, a whole run registers only the
    custom normal and bold fonts, draws every value as it is (nothing is
    transliterated), and sets no font but the normal and the bold one. *)
Theorem generateBuffer_without_fallback :
  forall ext options,
    fallback_enabled (fallback (fonts (style options))) = false ->
    let final := generateBuffer ext options initial_storage in
    registrations ext final = custom_registrations options /\
    contents ext final = map (ToString ext) (document_values ext options) /\
    fallback_loaded final = false /\
    Forall (fun name => name = font_name (normal (fonts (style options))) \/
                        name = font_name (bold (fonts (style options))))
      (fonts_of (doc_ops (getDocument ext final))).
Proof.
  intros ext options Hoff final.
  destruct (draws_generateBuffer ext options initial_storage) as (Hc & Hl).
  fold final in Hc, Hl.
  rewrite (disabled_existsb ext options Hoff) in Hl. cbn in Hl.
  refine (conj _ (conj _ (conj Hl _))).
  - destruct (grows_generateBuffer ext options initial_storage) as (_ & _ & R).
    change (getDocument ext initial_storage) with (new_document ext) in R.
    fold final in R. rewrite R, registrations_loadCustomFonts, Hl.
    replace (fallback_loaded (loadCustomFonts ext options
               (set_document (new_document ext) initial_storage)))
      with false; [apply app_nil_r|].
    symmetry. apply (draws_loadCustomFonts ext options).
  - rewrite Hc. cbn [contents]. 
    change (contents ext initial_storage) with (@nil jsstring).
    cbn [app]. apply map_ext. apply (disabled_value ext options Hoff).
  - apply (configured_generateBuffer ext options Hoff).
Qed.

Lemma generateBuffer_without_fallback_witness :
  let final :=
    generateBuffer sample_ext options_without_fallback initial_storage in
  registrations sample_ext final = custom_registrations options_without_fallback /\
  contents sample_ext final =
    map (ToString sample_ext)
      (document_values sample_ext options_without_fallback) /\
  fallback_loaded final = false /\
  Forall (fun name =>
            name = font_name (normal (fonts (style options_without_fallback))) \/
            name = font_name (bold (fonts (style options_without_fallback))))
    (fonts_of (doc_ops (getDocument sample_ext final))).
Proof.
  apply (generateBuffer_without_fallback sample_ext options_without_fallback).
  reflexivity.
Defined.



